(** * Strategy base interfaces of the distributed checkpointing core

    A shallow embedding of
    [megatron/core/dist_checkpointing/strategies/base.py]: the registry of
    default strategies ([default_strategies], [register_default_strategy],
    [get_default_strategy]), the load strategy base classes and the
    synchronous facade [AsyncSaveShardedStrategy.save].

    Python code that mutates process-wide objects and raises exceptions is
    written in a state-and-exception monad [Py S]: a computation takes the
    current state and gives back an outcome (a returned value or a raised
    exception) together with the state it leaves behind.  A raised exception
    keeps the mutations made before it, as in Python. *)

From stdpp Require Import base option list strings pretty gmap.

Local Open Scope string_scope.
Local Open Scope Z_scope.

(** ** Python exceptions *)

(** The exception classes that can reach this module.  [ModuleNotFoundError]
    is a subclass of [ImportError]; [CheckpointingException] is the
    checkpointing-domain error of [..mapping]. *)
Inductive ExnClass : Set :=
  | ImportError
  | ModuleNotFoundError
  | KeyError
  | NotImplementedError
  | RuntimeError
  | OSError
  | CheckpointingException.

(** An exception instance: its class, [str(e)] and its [__cause__]
    (set by [raise ... from e]). *)
#[warnings="-register-all"]
Inductive PyExn : Set :=
  | Exn (cls : ExnClass) (msg : string) (cause : option PyExn).

Definition exn_class (e : PyExn) : ExnClass := let 'Exn c _ _ := e in c.
Definition exn_str (e : PyExn) : string := let 'Exn _ m _ := e in m.
Definition exn_cause (e : PyExn) : option PyExn := let 'Exn _ _ c := e in c.

(** [isinstance(e, ImportError)], what [except ImportError] tests. *)
Definition is_ImportError (e : PyExn) : bool :=
  match exn_class e with
  | ImportError | ModuleNotFoundError => true
  | _ => false
  end.

(** [isinstance(e, KeyError)], what [except KeyError] tests. *)
Definition is_KeyError (e : PyExn) : bool :=
  match exn_class e with
  | KeyError => true
  | _ => false
  end.

(** ** The state-and-exception monad *)

Inductive Outcome (A : Type) : Type :=
  | Return (a : A)
  | Raise (e : PyExn).
Arguments Return {A} a.
Arguments Raise {A} e.

Definition Py (S A : Type) : Type := S → Outcome A * S.

Definition py_ret {S A} (a : A) : Py S A := λ st, (Return a, st).

Definition py_bind {S A B} (k : A → Py S B) (m : Py S A) : Py S B :=
  λ st, match m st with
        | (Return a, st') => k a st'
        | (Raise e, st') => (Raise e, st')
        end.

Definition py_raise {S A} (e : PyExn) : Py S A := λ st, (Raise e, st).

(** [try: body  except C as e: handler(e)], where [catches] decides
    [isinstance(e, C)].  An exception of another class passes through. *)
Definition try_except {S A} (body : Py S A) (catches : PyExn → bool)
    (handler : PyExn → Py S A) : Py S A :=
  λ st, match body st with
        | (Return a, st') => (Return a, st')
        | (Raise e, st') =>
            if catches e then handler e st' else (Raise e, st')
        end.

#[global] Instance Py_ret {S} : MRet (Py S) := @py_ret S.
#[global] Instance Py_bind {S} : MBind (Py S) := @py_bind S.

(** ** [repr] of the values that appear in error messages *)

Module PyRepr.

Definition squote : Ascii.ascii := Ascii.ascii_of_nat 39.
Definition dquote : Ascii.ascii := Ascii.ascii_of_nat 34.
Definition backslash : Ascii.ascii := Ascii.ascii_of_nat 92.

Fixpoint contains (c : Ascii.ascii) (s : string) : bool :=
  match s with
  | EmptyString => false
  | String c' s' => if Ascii.eqb c c' then true else contains c s'
  end.

(** [repr] of a [str] delimits it by single quotes, unless it holds a
    single quote and no double quote. *)
Definition quote_of (s : string) : Ascii.ascii :=
  if contains squote s && negb (contains dquote s) then dquote else squote.

Definition hex_digit (n : nat) : Ascii.ascii :=
  Ascii.ascii_of_nat (if (n <? 10)%nat then 48 + n else 87 + n)%nat.

Definition hex2 (n : nat) : string :=
  String (hex_digit (n / 16)) (String (hex_digit (n mod 16)) EmptyString).

(** Code points 128..160 and 173 are the ones below 256 that
    [str.isprintable] rejects. *)
Definition repr_char (q c : Ascii.ascii) : string :=
  let n := Ascii.nat_of_ascii c in
  if Ascii.eqb c q || Ascii.eqb c backslash
  then String backslash (String c EmptyString)
  else if (n =? 9)%nat then "\t"
  else if (n =? 10)%nat then "\n"
  else if (n =? 13)%nat then "\r"
  else if (n <? 32)%nat || (n =? 127)%nat then "\x" +:+ hex2 n
  else if (n <? 127)%nat then String c EmptyString
  else if (n <=? 160)%nat || (n =? 173)%nat then "\x" +:+ hex2 n
  else String c EmptyString.

Fixpoint repr_chars (q : Ascii.ascii) (s : string) : string :=
  match s with
  | EmptyString => EmptyString
  | String c s' => repr_char q c +:+ repr_chars q s'
  end.

(** [repr(s)] for a [str] whose code points are below 256, one character
    of the Rocq string per code point. *)
Definition repr_str (s : string) : string :=
  let q := quote_of s in
  String q (repr_chars q s +:+ String q EmptyString).

(** [repr(n)] for an [int]. *)
Definition repr_int (n : Z) : string := pretty n.

(** [repr((backend, version))]: the key of the inner dictionary. *)
Definition repr_tuple2 (backend : string) (version : Z) : string :=
  "(" +:+ repr_str backend +:+ ", " +:+ repr_int version +:+ ")".

(** [repr((action.value, backend, version))]: how [get_default_strategy]
    prints an identity. *)
Definition repr_tuple3 (a backend : string) (version : Z) : string :=
  "(" +:+ repr_str a +:+ ", " +:+ repr_str backend +:+ ", "
      +:+ repr_int version +:+ ")".

End PyRepr.

(** ** [StrategyAction] *)

Inductive StrategyAction : Set :=
  | LOAD_COMMON
  | LOAD_SHARDED
  | SAVE_COMMON
  | SAVE_SHARDED.

Definition value (a : StrategyAction) : string :=
  match a with
  | LOAD_COMMON => "load_common"
  | LOAD_SHARDED => "load_sharded"
  | SAVE_COMMON => "save_common"
  | SAVE_SHARDED => "save_sharded"
  end.

(** ** The registry of default strategies *)

Section Registry.

(** The strategy objects.  The dictionaries hold references to them, so
    reading an entry gives back the very object that was stored. *)
Context {Strategy : Type}.

(** [default_strategies: DefaultDict[str, dict[tuple, Any]]]: from
    [action.value] to a dictionary from [(backend, version)] to the
    strategy. *)
Local Abbreviation Registry := (gmap string (gmap (string * Z) Strategy)).

(** [d[k]] on a [defaultdict(dict)]: a missing key is first bound to a new
    empty dictionary. *)
Definition defaultdict_getitem (k : string) :
    Py Registry (gmap (string * Z) Strategy) :=
  λ d, match d !! k with
       | Some inner => (Return inner, d)
       | None => (Return ∅, <[k := ∅]> d)
       end.

(** [inner[key]] on a plain [dict]: a missing key raises [KeyError(key)],
    whose [str] is [repr(key)]. *)
Definition dict_getitem (inner : gmap (string * Z) Strategy)
    (key : string * Z) : Py Registry Strategy :=
  match inner !! key with
  | Some strategy => mret strategy
  | None => py_raise (Exn KeyError (PyRepr.repr_tuple2 key.1 key.2) None)
  end.

(** [default_strategies[action.value][(backend, version)] = strategy]:
    the inner dictionary (made on demand) is updated in place. *)
Definition register_default_strategy (action : StrategyAction)
    (backend : string) (version : Z) (strategy : Strategy) :
    Py Registry unit :=
  λ d, let inner := default ∅ (d !! value action) in
       (Return (), <[value action := <[(backend, version) := strategy]> inner]> d).

(** One call of [register_default_strategy], as data. *)
Definition Registration : Type := StrategyAction * string * Z * Strategy.

(** Modelled from the spec: the backend modules [.tensorstore], [.zarr] and
    [.torch], which [get_default_strategy] imports and which are not part
    of this file.  Importing a module either raises (an optional dependency
    is absent, say) or provides its [register_default_*_strategies]
    routine, "a side-effecting call that itself performs zero or more
    register calls". *)
Inductive BackendModule : Type :=
  | ImportRaises (e : PyExn)
  | Provides (registrations : list Registration).

Record Backends : Type := {
  tensorstore : BackendModule;
  zarr : BackendModule;
  torch : BackendModule
}.

(** The body of a [register_default_*_strategies] routine. *)
Fixpoint register_all (regs : list Registration) : Py Registry unit :=
  match regs with
  | [] => mret ()
  | (action, backend, version, strategy) :: regs' =>
      register_default_strategy action backend version strategy;;
      register_all regs'
  end.

(** [from .module import register_default_module_strategies]. *)
Definition import_from (m : BackendModule) : Py Registry (Py Registry unit) :=
  match m with
  | ImportRaises e => py_raise e
  | Provides regs => mret (register_all regs)
  end.

(** The body of the first [try] of [get_default_strategy], with the value
    [error_hint] has whenever that body raises. *)
Definition activation (backends : Backends) (backend : string) :
    string * Py Registry unit :=
  if decide (backend = "zarr") then
    (" Please install `zarr` and `tensorstore!=0.1.46` packages",
     register_default_tensorstore_strategies ← import_from (tensorstore backends);
     register_default_tensorstore_strategies;;
     register_default_zarr_strategies ← import_from (zarr backends);
     register_default_zarr_strategies)
  else if decide (backend = "torch_dist") then
    (" Please use PyTorch version >=2.1",
     register_default_torch_strategies ← import_from (torch backends);
     register_default_torch_strategies)
  else ("", mret ()).

Definition cannot_import_message (action : StrategyAction) (backend : string)
    (version : Z) (e : PyExn) (error_hint : string) : string :=
  "Cannot import a default strategy for: "
    +:+ PyRepr.repr_tuple3 (value action) backend version
    +:+ ". Error: " +:+ exn_str e +:+ ". Hint: " +:+ error_hint.

Definition cannot_find_message (action : StrategyAction) (backend : string)
    (version : Z) : string :=
  "Cannot find a default strategy for: "
    +:+ PyRepr.repr_tuple3 (value action) backend version.

(** The second [try] of [get_default_strategy]. *)
Definition lookup_default_strategy (action : StrategyAction)
    (backend : string) (version : Z) : Py Registry Strategy :=
  try_except
    (inner ← defaultdict_getitem (value action);
     dict_getitem inner (backend, version))
    is_KeyError
    (λ e, py_raise (Exn CheckpointingException
                      (cannot_find_message action backend version) (Some e))).

Definition get_default_strategy (backends : Backends)
    (action : StrategyAction) (backend : string) (version : Z) :
    Py Registry Strategy :=
  let '(error_hint, body) := activation backends backend in
  try_except body is_ImportError
    (λ e, py_raise (Exn CheckpointingException
                      (cannot_import_message action backend version e error_hint)
                      (Some e)));;
  lookup_default_strategy action backend version.

(** The modules the activation of a backend imports, in order. *)
Definition backend_modules (backends : Backends) (backend : string) :
    list BackendModule :=
  if decide (backend = "zarr") then [tensorstore backends; zarr backends]
  else if decide (backend = "torch_dist") then [torch backends]
  else [].

(** The module can be imported and its routine performs no registration
    for the identity. *)
Definition skips_identity (m : BackendModule) (action : StrategyAction)
    (backend : string) (version : Z) : Prop :=
  match m with
  | ImportRaises _ => False
  | Provides regs => ∀ strategy, (action, backend, version, strategy) ∉ regs
  end.

(** The strategy stored under an identity, if any. *)
Definition registered (d : Registry) (action : StrategyAction)
    (backend : string) (version : Z) : option Strategy :=
  inner ← d !! value action; inner !! (backend, version).

End Registry.

Arguments BackendModule Strategy : clear implicits.
Arguments Backends Strategy : clear implicits.
Arguments Registration Strategy : clear implicits.

#[global] Instance StrategyAction_eq_dec : EqDecision StrategyAction.
Proof. solve_decision. Defined.

(** The two errors [get_default_strategy] raises itself. *)
Definition strategy_not_found (action : StrategyAction) (backend : string)
    (version : Z) : PyExn :=
  Exn CheckpointingException (cannot_find_message action backend version)
      (Some (Exn KeyError (PyRepr.repr_tuple2 backend version) None)).

Definition backend_unavailable (action : StrategyAction) (backend : string)
    (version : Z) (e : PyExn) (error_hint : string) : PyExn :=
  Exn CheckpointingException
      (cannot_import_message action backend version e error_hint) (Some e).

(** [sub] occurs in [s]. *)
Definition includes (sub s : string) : Prop :=
  ∃ pre post, s = pre +:+ sub +:+ post.


(** ** Load strategies *)

(** A strategy object is the record of what its class supplies: the abstract
    methods it implements and the value of its [can_handle_sharded_objects]
    property, which [LoadStrategyBase] and [SaveStrategyBase] define as
    [False] and a subclass may redefine.  The methods below are the ones the
    base classes define, as functions of [self].  Methods read and write the
    durable storage, of type [Storage]; a [ShardedStateDict] maps keys to
    leaves of type [Leaf]. *)

Definition LoadStrategyBase_can_handle_sharded_objects : bool := false.
Definition SaveStrategyBase_can_handle_sharded_objects : bool := false.

Module LoadCommonStrategy.

Record t (Storage StateDict Leaf : Type) : Type := {
  can_handle_sharded_objects : bool;
  load_common : string → Py Storage StateDict;
  load_sharded_objects : gmap string Leaf → string → Py Storage StateDict
}.
Arguments can_handle_sharded_objects {Storage StateDict Leaf} self : rename.
Arguments load_common {Storage StateDict Leaf} self checkpoint_dir : rename.
Arguments load_sharded_objects {Storage StateDict Leaf}
  self sharded_objects_state_dict checkpoint_dir : rename.

Definition load_sharded_metadata {Storage StateDict Leaf}
    (self : t Storage StateDict Leaf) (checkpoint_dir : string) :
    Py Storage (gmap string Leaf) :=
  if negb (can_handle_sharded_objects self) then mret ∅
  else py_raise (Exn NotImplementedError "" None).

End LoadCommonStrategy.

Module LoadShardedStrategy.

Record t (Storage StateDict Leaf : Type) : Type := {
  class_name : string;
  can_handle_sharded_objects : bool;
  load : gmap string Leaf → string → Py Storage StateDict;
  load_tensors_metadata : string → Py Storage (gmap string Leaf)
}.
Arguments class_name {Storage StateDict Leaf} self : rename.
Arguments can_handle_sharded_objects {Storage StateDict Leaf} self : rename.
Arguments load {Storage StateDict Leaf}
  self sharded_state_dict checkpoint_dir : rename.
Arguments load_tensors_metadata {Storage StateDict Leaf}
  self checkpoint_dir : rename.

(** The body the abstract [load_tensors_metadata] has in the base class,
    which an implementation reaches through [super()]. *)
Definition load_tensors_metadata_base {Storage Leaf} (class_name : string)
    (checkpoint_dir : string) : Py Storage (gmap string Leaf) :=
  py_raise (Exn NotImplementedError
              ("Loading only tensors metadata not implemented for "
                 +:+ class_name) None).

Definition load_sharded_metadata {Storage StateDict Leaf}
    (self : t Storage StateDict Leaf) (checkpoint_dir : string) :
    Py Storage (gmap string Leaf) :=
  if negb (can_handle_sharded_objects self)
  then load_tensors_metadata self checkpoint_dir
  else py_raise (Exn NotImplementedError
                   ("Loading only sharded metadata not implemented for "
                      +:+ class_name self) None).

Definition remove_sharded_tensors {Storage StateDict Leaf}
    (self : t Storage StateDict Leaf) (checkpoint_dir key_prefix : string) :
    Py Storage unit :=
  py_raise (Exn NotImplementedError "" None).

End LoadShardedStrategy.

(** A load strategy of either family, with the dispatch of
    [strategy.can_handle_sharded_objects] and
    [strategy.load_sharded_metadata(checkpoint_dir)] on its class. *)
Inductive LoadStrategy (Storage StateDict Leaf : Type) : Type :=
  | Common (self : LoadCommonStrategy.t Storage StateDict Leaf)
  | Sharded (self : LoadShardedStrategy.t Storage StateDict Leaf).
Arguments Common {Storage StateDict Leaf} self.
Arguments Sharded {Storage StateDict Leaf} self.

Definition can_handle_sharded_objects {Storage StateDict Leaf}
    (strategy : LoadStrategy Storage StateDict Leaf) : bool :=
  match strategy with
  | Common self => LoadCommonStrategy.can_handle_sharded_objects self
  | Sharded self => LoadShardedStrategy.can_handle_sharded_objects self
  end.

Definition load_sharded_metadata {Storage StateDict Leaf}
    (strategy : LoadStrategy Storage StateDict Leaf) (checkpoint_dir : string) :
    Py Storage (gmap string Leaf) :=
  match strategy with
  | Common self => LoadCommonStrategy.load_sharded_metadata self checkpoint_dir
  | Sharded self => LoadShardedStrategy.load_sharded_metadata self checkpoint_dir
  end.

(** ** The queue of asynchronous calls *)

(** Modelled from the spec: [AsyncRequest] and [AsyncCallsQueue] of
    [.async_utils], which is not part of this file.  A request pairs the
    deferred write [execute] with the bookkeeping [finalize] that has to
    follow it.  The queue holds the pending requests in the order they were
    scheduled, each with a mark telling whether its write has run. *)
Module AsyncCallsQueue.

Record AsyncRequest (Storage : Type) : Type := {
  execute : Py Storage unit;
  finalize : Py Storage unit
}.
Arguments execute {Storage} request : rename.
Arguments finalize {Storage} request : rename.

Record Entry (Storage : Type) : Type := {
  request : AsyncRequest Storage;
  executed : bool
}.
Arguments Build_Entry {Storage} request executed.
Arguments request {Storage} entry : rename.
Arguments executed {Storage} entry : rename.

(** What a process holds: the durable storage and the shared queue
    [async_calls]. *)
Record World (Storage : Type) : Type := {
  storage : Storage;
  async_calls : list (Entry Storage)
}.
Arguments Build_World {Storage} storage async_calls.
Arguments storage {Storage} w : rename.
Arguments async_calls {Storage} w : rename.

(** "appends to the tail of the queue; does not run anything". *)
Definition schedule_async_request {Storage} (async_request : AsyncRequest Storage) :
    Py (World Storage) unit :=
  λ w, (Return (),
        Build_World (storage w)
          (async_calls w ++ [Build_Entry async_request false])).

(** The write of one entry, "if not already run". *)
Definition run_entry {Storage} (entry : Entry Storage) : Py Storage unit :=
  (if executed entry then mret () else execute (request entry));;
  finalize (request entry).

(** "process queue entries strictly in FIFO order: for each, run
    [execute()] if not already run, then run [finalize()], removing the
    entry; propagate the first failure encountered and stop (entries after
    the failing one remain scheduled)".  The result tells whether an entry
    was finalized. *)
Fixpoint finalize_blocking {Storage} (queue : list (Entry Storage))
    (finalized : bool) (st : Storage) :
    Outcome bool * World Storage :=
  match queue with
  | [] => (Return finalized, Build_World st [])
  | entry :: queue' =>
      match run_entry entry st with
      | (Return _, st') => finalize_blocking queue' true st'
      | (Raise e, st') => (Raise e, Build_World st' queue')
      end
  end.

(** "only finalize entries whose underlying execution has already
    completed; entries still in flight are left in place". *)
Fixpoint finalize_completed {Storage} (queue : list (Entry Storage))
    (finalized : bool) (st : Storage) :
    Outcome bool * World Storage :=
  match queue with
  | [] => (Return finalized, Build_World st [])
  | entry :: queue' =>
      if executed entry then
        match finalize (request entry) st with
        | (Return _, st') => finalize_completed queue' true st'
        | (Raise e, st') => (Raise e, Build_World st' queue')
        end
      else (Return finalized, Build_World st queue)
  end.

Definition maybe_finalize_async_calls {Storage} (blocking : bool) :
    Py (World Storage) bool :=
  λ w, if blocking
       then finalize_blocking (async_calls w) false (storage w)
       else finalize_completed (async_calls w) false (storage w).

End AsyncCallsQueue.

(** ** Save strategies *)

Module AsyncSaveShardedStrategy.

Import AsyncCallsQueue.

(** [backend] and [version] are the attributes [SaveStrategyBase.__init__]
    sets; [async_save] is the abstract method. *)
Record t (Storage Leaf : Type) : Type := {
  backend : string;
  version : Z;
  can_handle_sharded_objects : bool;
  async_save : gmap string Leaf → string →
               Py (World Storage) (AsyncRequest Storage)
}.
Arguments backend {Storage Leaf} self : rename.
Arguments version {Storage Leaf} self : rename.
Arguments can_handle_sharded_objects {Storage Leaf} self : rename.
Arguments async_save {Storage Leaf}
  self sharded_state_dict checkpoint_dir : rename.

(** "Each async strategy can be trivially used as a sync strategy." *)
Definition save {Storage Leaf} (self : t Storage Leaf)
    (sharded_state_dict : gmap string Leaf) (checkpoint_dir : string) :
    Py (World Storage) unit :=
  async_request ← async_save self sharded_state_dict checkpoint_dir;
  schedule_async_request async_request;;
  _ ← maybe_finalize_async_calls true;
  mret ().

(** The composition the specification describes, step by step on the
    state: obtain the request from [async_save], schedule it on the shared
    queue, then finalize in blocking mode. *)
Definition async_save_schedule_finalize {Storage Leaf} (self : t Storage Leaf)
    (sharded_state_dict : gmap string Leaf) (checkpoint_dir : string)
    (w : World Storage) : Outcome unit * World Storage :=
  match async_save self sharded_state_dict checkpoint_dir w with
  | (Raise e, w1) => (Raise e, w1)
  | (Return async_request, w1) =>
      let w2 := Build_World (storage w1)
                  (async_calls w1 ++ [Build_Entry async_request false]) in
      match finalize_blocking (async_calls w2) false (storage w2) with
      | (Raise e, w3) => (Raise e, w3)
      | (Return _, w3) => (Return (), w3)
      end
  end.

End AsyncSaveShardedStrategy.

(** ** Sequences of registrations *)

Section Registrations.

Context {Strategy : Type}.

(** The strategy of the last registration for an identity in a sequence of
    [register_default_strategy] calls, if there is one. *)
Fixpoint last_registration (regs : list (Registration Strategy))
    (action : StrategyAction) (backend : string) (version : Z) :
    option Strategy :=
  match regs with
  | [] => None
  | (action', backend', version', strategy) :: regs' =>
      match last_registration regs' action backend version with
      | Some later => Some later
      | None =>
          if decide ((action', backend', version') = (action, backend, version))
          then Some strategy else None
      end
  end.

End Registrations.

(** ** [SaveStrategyBase] *)

Module SaveStrategyBase.

(** The attributes [__init__] sets, with the name of the object's class. *)
Record t : Type := {
  class_name : string;
  backend : string;
  version : Z
}.

Definition __init__ (class_name backend : string) (version : Z) : t :=
  {| class_name := class_name; backend := backend; version := version |}.

(** [f'{self.__class__.__name__}({self.backend}, {self.version})']. *)
Definition __str__ (self : t) : string :=
  class_name self +:+ "(" +:+ backend self +:+ ", "
    +:+ PyRepr.repr_int (version self) +:+ ")".

End SaveStrategyBase.


(** ** Strings that [repr] prints as they are *)

(** A printable ASCII character other than the single quote and the
    backslash: [repr] of a [str] made of such characters is the string
    between single quotes. *)
Definition plain_char (c : Ascii.ascii) : bool :=
  let n := Ascii.nat_of_ascii c in
  (32 <=? n)%nat && (n <? 127)%nat && negb (n =? 39)%nat && negb (n =? 92)%nat.

Fixpoint plain (s : string) : bool :=
  match s with
  | EmptyString => true
  | String c s' => plain_char c && plain s'
  end.

(** ** Running the entries of the queue in order *)

(** The writes and the bookkeeping of the pending requests, one entry after
    the other in the order of the queue, up to the first that raises. *)
Fixpoint run_entries {Storage} (queue : list (AsyncCallsQueue.Entry Storage)) :
    Py Storage unit :=
  match queue with
  | [] => mret ()
  | entry :: queue' => AsyncCallsQueue.run_entry entry;; run_entries queue'
  end.

(** ** Concrete environments *)

Module Examples.

(** Strategy objects are named by their object id. *)
Definition zarr_missing : PyExn :=
  Exn ModuleNotFoundError "No module named 'zarr'" None.

Definition tensorstore_missing : PyExn :=
  Exn ModuleNotFoundError "No module named 'tensorstore'" None.

Definition torch_too_old : PyExn :=
  Exn ImportError "cannot import name 'DefaultSavePlanner'" None.

Definition shared_library_missing : PyExn :=
  Exn OSError "libcudart.so: cannot open shared object file" None.

(** Every backend module imports; each routine registers its defaults. *)
Definition all_installed : Backends nat := {|
  tensorstore := Provides [(LOAD_SHARDED, "zarr", 1, 100%nat)];
  zarr := Provides [(SAVE_SHARDED, "zarr", 1, 101%nat)];
  torch := Provides [(LOAD_SHARDED, "torch_dist", 1, 102%nat);
                     (SAVE_SHARDED, "torch_dist", 1, 103%nat)]
|}.

(** [tensorstore] is there, [zarr] is not. *)
Definition zarr_not_installed : Backends nat := {|
  tensorstore := Provides [(LOAD_SHARDED, "zarr", 1, 100%nat)];
  zarr := ImportRaises zarr_missing;
  torch := Provides [(LOAD_SHARDED, "torch_dist", 1, 102%nat);
                     (SAVE_SHARDED, "torch_dist", 1, 103%nat)]
|}.

(** PyTorch is older than 2.1. *)
Definition torch_unusable : Backends nat := {|
  tensorstore := ImportRaises tensorstore_missing;
  zarr := ImportRaises zarr_missing;
  torch := ImportRaises torch_too_old
|}.

(** Importing [.torch] fails, but not with an [ImportError]. *)
Definition torch_broken : Backends nat := {|
  tensorstore := Provides [];
  zarr := Provides [];
  torch := ImportRaises shared_library_missing
|}.

(** A registry in which strategy 7 was registered by hand. *)
Definition with_user_strategy (a : StrategyAction) (b : string) (v : Z) :
    gmap string (gmap (string * Z) nat) :=
  (register_default_strategy a b v 7%nat ∅).2.

(** Tensor metadata (global shape and dtype), and a storage that keeps,
    for each checkpoint directory, the metadata of the tensors saved
    there. *)
Definition Meta : Type := list Z * string.
Definition Disk : Type := gmap string (gmap string Meta).

Definition no_checkpoint (checkpoint_dir : string) : PyExn :=
  Exn CheckpointingException ("No checkpoint in " +:+ checkpoint_dir) None.

Definition read_metadata (checkpoint_dir : string) :
    Py Disk (gmap string Meta) :=
  λ st, match st !! checkpoint_dir with
        | Some tensors => (Return tensors, st)
        | None => (Raise (no_checkpoint checkpoint_dir), st)
        end.

(** A sharded load strategy for tensors only: it keeps the property of
    [LoadStrategyBase] and implements [load_tensors_metadata]. *)
Definition tensor_loader : LoadShardedStrategy.t Disk (gmap string Meta) Meta := {|
  LoadShardedStrategy.class_name := "TensorLoader";
  LoadShardedStrategy.can_handle_sharded_objects :=
    LoadStrategyBase_can_handle_sharded_objects;
  LoadShardedStrategy.load := λ _ checkpoint_dir, read_metadata checkpoint_dir;
  LoadShardedStrategy.load_tensors_metadata := read_metadata
|}.

(** A sharded load strategy that redefines the property to [True] and
    keeps the inherited [load_sharded_metadata]. *)
Definition object_loader : LoadShardedStrategy.t Disk (gmap string Meta) Meta := {|
  LoadShardedStrategy.class_name := "ObjectLoader";
  LoadShardedStrategy.can_handle_sharded_objects := true;
  LoadShardedStrategy.load := λ _ checkpoint_dir, read_metadata checkpoint_dir;
  LoadShardedStrategy.load_tensors_metadata := read_metadata
|}.

(** A common load strategy that keeps the property of
    [LoadStrategyBase]. *)
Definition common_loader : LoadCommonStrategy.t Disk (gmap string Meta) Meta := {|
  LoadCommonStrategy.can_handle_sharded_objects :=
    LoadStrategyBase_can_handle_sharded_objects;
  LoadCommonStrategy.load_common := read_metadata;
  LoadCommonStrategy.load_sharded_objects := λ _ checkpoint_dir,
    read_metadata checkpoint_dir
|}.

Definition one_checkpoint : Disk :=
  {[ "ckpt" := {[ "layer.weight" := ([4; 8], "float32") ]} ]}.

(** An asynchronous save strategy: the deferred write stores the state
    dict under the checkpoint directory. *)
Definition disk_saver : AsyncSaveShardedStrategy.t Disk Meta := {|
  AsyncSaveShardedStrategy.backend := "disk";
  AsyncSaveShardedStrategy.version := 1;
  AsyncSaveShardedStrategy.can_handle_sharded_objects :=
    SaveStrategyBase_can_handle_sharded_objects;
  AsyncSaveShardedStrategy.async_save := λ sharded_state_dict checkpoint_dir,
    mret {| AsyncCallsQueue.execute :=
              λ st, (Return (), <[checkpoint_dir := sharded_state_dict]> st);
            AsyncCallsQueue.finalize := mret () |}
|}.

End Examples.

Module MoreExamples.

Import Examples.

(** The characters that delimit the parts of [SaveStrategyBase.__str__]. *)
Definition lparen : Ascii.ascii := Ascii.ascii_of_nat 40.
Definition rparen : Ascii.ascii := Ascii.ascii_of_nat 41.
Definition comma : Ascii.ascii := Ascii.ascii_of_nat 44.
Definition space : Ascii.ascii := Ascii.ascii_of_nat 32.

Definition disk_full : PyExn := Exn OSError "No space left on device" None.

(** A request that writes an empty checkpoint under ["old"]. *)
Definition old_request : AsyncCallsQueue.AsyncRequest Disk := {|
  AsyncCallsQueue.execute := λ st, (Return (), <["old" := ∅]> st);
  AsyncCallsQueue.finalize := mret ()
|}.

Definition weights : gmap string Meta :=
  {[ "layer.weight" := ([4; 8], "float32") ]}.

(** An asynchronous save strategy whose preparation fails. *)
Definition unprepared_saver : AsyncSaveShardedStrategy.t Disk Meta := {|
  AsyncSaveShardedStrategy.backend := "disk";
  AsyncSaveShardedStrategy.version := 1;
  AsyncSaveShardedStrategy.can_handle_sharded_objects :=
    SaveStrategyBase_can_handle_sharded_objects;
  AsyncSaveShardedStrategy.async_save := λ _ _, py_raise disk_full
|}.

End MoreExamples.
(** * Facts about the model *)

Lemma append_assoc (s1 s2 s3 : string) :
  (s1 +:+ s2) +:+ s3 = s1 +:+ s2 +:+ s3.
Proof.
  induction s1 as [|c s1 IH]; [reflexivity |].
  change (String c ((s1 +:+ s2) +:+ s3) = String c (s1 +:+ s2 +:+ s3)).
  by rewrite IH.
Qed.

Lemma append_nil_r (s : string) : s +:+ "" = s.
Proof.
  induction s as [|c s IH]; [reflexivity |].
  change (String c (s +:+ "") = String c s). by rewrite IH.
Qed.

Lemma includes_prefix (sub s pre : string) :
  includes sub s → includes sub (pre +:+ s).
Proof.
  intros (p & q & ->). exists (pre +:+ p), q. by rewrite append_assoc.
Qed.

Lemma includes_here (sub post : string) : includes sub (sub +:+ post).
Proof. by exists "", post. Qed.

Lemma includes_refl (s : string) : includes s s.
Proof. exists "", "". by rewrite append_nil_r. Qed.

Lemma value_inj (a a' : StrategyAction) : value a = value a' → a = a'.
Proof. destruct a, a'; simpl; intros H; first [done | discriminate H]. Qed.

Section RegistryFacts.

Context {Strategy : Type}.
Local Abbreviation Registry := (gmap string (gmap (string * Z) Strategy)).
Implicit Types (d : Registry) (a : StrategyAction) (b : string) (v : Z).
Implicit Types (s : Strategy) (B : Backends Strategy).

Lemma registered_register_eq a b v s d :
  registered (register_default_strategy a b v s d).2 a b v = Some s.
Proof.
  unfold registered, register_default_strategy; simpl.
  rewrite lookup_insert_eq; simpl. by rewrite lookup_insert_eq.
Qed.

Lemma registered_register_ne a b v s d a' b' v' :
  (a, b, v) ≠ (a', b', v') →
  registered (register_default_strategy a b v s d).2 a' b' v'
  = registered d a' b' v'.
Proof.
  intros Hne. unfold registered, register_default_strategy; simpl.
  destruct (decide (value a = value a')) as [Ha | Ha].
  - apply value_inj in Ha as <-. rewrite lookup_insert_eq; simpl.
    rewrite lookup_insert_ne by congruence.
    destruct (d !! value a); simpl; [done | by rewrite lookup_empty].
  - by rewrite lookup_insert_ne.
Qed.

(** The lookup of the triple reads the registry entry and nothing else. *)
Lemma lookup_default_strategy_outcome a b v d :
  (lookup_default_strategy a b v d).1
  = match registered d a b v with
    | Some s => Return s
    | None => Raise (strategy_not_found a b v)
    end.
Proof.
  unfold lookup_default_strategy, try_except, registered, mbind, Py_bind,
    py_bind, defaultdict_getitem, dict_getitem.
  destruct (d !! value a) as [inner|]; simpl.
  - destruct (inner !! (b, v)); by simpl.
  - by rewrite lookup_empty.
Qed.

(** The lookup adds at most an empty inner dictionary. *)
Lemma lookup_default_strategy_registered a b v d a' b' v' :
  registered (lookup_default_strategy a b v d).2 a' b' v'
  = registered d a' b' v'.
Proof.
  unfold lookup_default_strategy, try_except, registered, mbind, Py_bind,
    py_bind, defaultdict_getitem, dict_getitem.
  destruct (d !! value a) as [inner|] eqn:Hd; simpl.
  - destruct (inner !! (b, v)); by simpl.
  - rewrite lookup_empty; simpl.
    destruct (decide (value a = value a')) as [Ha | Ha].
    + rewrite <- Ha, lookup_insert_eq, Hd; simpl. by rewrite lookup_empty.
    + by rewrite lookup_insert_ne.
Qed.

(** [get_default_strategy] is the activation followed by the lookup. *)
Lemma get_default_strategy_run B a b v d :
  get_default_strategy B a b v d
  = match (activation B b).2 d with
    | (Return _, d') => lookup_default_strategy a b v d'
    | (Raise e, d') =>
        if is_ImportError e
        then (Raise (backend_unavailable a b v e (activation B b).1), d')
        else (Raise e, d')
    end.
Proof.
  unfold get_default_strategy.
  destruct (activation B b) as [hint body]; simpl.
  unfold mbind, Py_bind, py_bind, try_except.
  destruct (body d) as [[[]|e] d']; simpl; [done |].
  by destruct (is_ImportError e).
Qed.

Lemma activation_none B b :
  b ≠ "zarr" → b ≠ "torch_dist" → activation B b = ("", mret ()).
Proof. intros. unfold activation. by rewrite !decide_False. Qed.

(** A backend without an activation routine: only the lookup runs. *)
Lemma get_default_strategy_no_activation B a b v d :
  b ≠ "zarr" → b ≠ "torch_dist" →
  get_default_strategy B a b v d = lookup_default_strategy a b v d.
Proof.
  intros Hz Ht. rewrite get_default_strategy_run.
  by rewrite activation_none.
Qed.

(** *** What the activation depends on *)

Lemma register_all_run (regs : list (Registration Strategy)) d :
  register_all regs d = (Return (), (register_all regs d).2).
Proof.
  revert d. induction regs as [|[[[a b] v] s] regs IH]; intros d; [done |].
  simpl. unfold mbind, Py_bind, py_bind. simpl. apply IH.
Qed.

Lemma import_then_call (m : BackendModule Strategy) d :
  (routine ← import_from m; routine) d
  = match m with
    | ImportRaises e => (Raise e, d)
    | Provides regs => (Return (), (register_all regs d).2)
    end.
Proof.
  destruct m as [e | regs]; unfold mbind, Py_bind, py_bind; simpl; [done |].
  apply register_all_run.
Qed.

Lemma activation_zarr B d :
  (activation B "zarr").2 d
  = match tensorstore B with
    | ImportRaises e => (Raise e, d)
    | Provides regs => (routine ← import_from (zarr B); routine)
                         (register_all regs d).2
    end.
Proof.
  unfold activation; simpl.
  destruct (tensorstore B) as [e | regs];
    unfold mbind, Py_bind, py_bind; simpl; [done |].
  by rewrite (register_all_run regs d).
Qed.

(** Two registries that agree on an identity still agree on it after the
    same registration. *)
Lemma register_agree a b v s d d' a' b' v' :
  registered d a' b' v' = registered d' a' b' v' →
  registered (register_default_strategy a b v s d).2 a' b' v'
  = registered (register_default_strategy a b v s d').2 a' b' v'.
Proof.
  intros Hagree.
  destruct (decide ((a, b, v) = (a', b', v'))) as [Heq | Hne].
  - injection Heq as <- <- <-. by rewrite !registered_register_eq.
  - by rewrite !registered_register_ne.
Qed.

Lemma register_all_agree (regs : list (Registration Strategy)) d d' a b v :
  registered d a b v = registered d' a b v →
  registered (register_all regs d).2 a b v
  = registered (register_all regs d').2 a b v.
Proof.
  revert d d'.
  induction regs as [|[[[a0 b0] v0] s0] regs IH]; intros d d' Hagree;
    [done |].
  simpl. unfold mbind, Py_bind, py_bind. simpl.
  apply IH. by apply register_agree.
Qed.

Lemma import_then_call_agree (m : BackendModule Strategy) d d' a b v :
  registered d a b v = registered d' a b v →
  ((routine ← import_from m; routine) d).1
  = ((routine ← import_from m; routine) d').1
  ∧ registered ((routine ← import_from m; routine) d).2 a b v
    = registered ((routine ← import_from m; routine) d').2 a b v.
Proof.
  intros Hagree. rewrite !import_then_call.
  destruct m as [e | regs]; simpl; [done |].
  split; [done | by apply register_all_agree].
Qed.

(** Whether the activation raises does not depend on the registry, and it
    treats each identity on its own. *)
Lemma activation_agree B b0 d d' a b v :
  registered d a b v = registered d' a b v →
  ((activation B b0).2 d).1 = ((activation B b0).2 d').1
  ∧ registered ((activation B b0).2 d).2 a b v
    = registered ((activation B b0).2 d').2 a b v.
Proof.
  intros Hagree.
  destruct (decide (b0 = "zarr")) as [-> | Hz].
  - rewrite !activation_zarr.
    destruct (tensorstore B) as [e | regs]; [done |].
    apply import_then_call_agree. by apply register_all_agree.
  - unfold activation. rewrite decide_False by done.
    destruct (decide (b0 = "torch_dist")); simpl; [| done].
    by apply import_then_call_agree.
Qed.

(** The result of [get_default_strategy] depends on the registry only
    through the entry of the identity asked for. *)
Lemma get_default_strategy_agree B a b v d d' :
  registered d a b v = registered d' a b v →
  (get_default_strategy B a b v d).1 = (get_default_strategy B a b v d').1.
Proof.
  intros Hagree. rewrite !get_default_strategy_run.
  destruct (activation_agree B b d d' a b v Hagree) as [Hout Hreg].
  destruct ((activation B b).2 d) as [[[]|e] d1],
           ((activation B b).2 d') as [[[]|e'] d1'];
    simpl in Hout, Hreg; try discriminate Hout.
  - by rewrite !lookup_default_strategy_outcome, Hreg.
  - injection Hout as <-. by destruct (is_ImportError e).
Qed.

(** *** Routines that do not register the identity *)

Lemma register_all_keeps_entry (regs : list (Registration Strategy)) d a b v :
  (∀ s, (a, b, v, s) ∉ regs) →
  registered (register_all regs d).2 a b v = registered d a b v.
Proof.
  revert d.
  induction regs as [|[[[a0 b0] v0] s0] regs IH]; intros d Hskip; [done |].
  simpl. unfold mbind, Py_bind, py_bind. simpl.
  rewrite IH.
  - apply registered_register_ne. intros [= -> -> ->].
    apply (Hskip s0). left.
  - intros s Hin. apply (Hskip s). by right.
Qed.

Lemma import_then_call_keeps_entry (m : BackendModule Strategy) d a b v :
  skips_identity m a b v →
  ∃ d', (routine ← import_from m; routine) d = (Return (), d')
        ∧ registered d' a b v = registered d a b v.
Proof.
  intros Hskip. rewrite import_then_call.
  destruct m as [e | regs]; simpl in Hskip; [done |].
  eexists. split; [done |]. by apply register_all_keeps_entry.
Qed.

(** When every module of the backend can be imported and no routine
    registers the identity, the activation returns and leaves the entry of
    the identity as it was. *)
Lemma activation_keeps_entry B b0 d a b v :
  Forall (λ m, skips_identity m a b v) (backend_modules B b0) →
  ∃ d', (activation B b0).2 d = (Return (), d')
        ∧ registered d' a b v = registered d a b v.
Proof.
  unfold backend_modules. intros Hskip.
  destruct (decide (b0 = "zarr")) as [-> | Hz].
  - apply Forall_cons in Hskip as [Hts Hskip].
    apply Forall_cons in Hskip as [Hzarr _].
    rewrite activation_zarr.
    destruct (tensorstore B) as [e | regs]; simpl in Hts; [done |].
    destruct (import_then_call_keeps_entry (zarr B)
                (register_all regs d).2 a b v Hzarr) as (d' & Hrun & Hreg).
    exists d'. split; [exact Hrun |].
    rewrite Hreg. by apply register_all_keeps_entry.
  - destruct (decide (b0 = "torch_dist")) as [-> | Ht].
    + apply Forall_cons in Hskip as [Htorch _].
      by apply import_then_call_keeps_entry.
    + rewrite activation_none by done. by exists d.
Qed.

End RegistryFacts.

(** * What the error messages print *)

Lemma includes_suffix (sub s post : string) :
  includes sub s → includes sub (s +:+ post).
Proof.
  intros (p & q & ->). exists p, (q +:+ post). by rewrite !append_assoc.
Qed.

Lemma includes_trans (s1 s2 s3 : string) :
  includes s1 s2 → includes s2 s3 → includes s1 s3.
Proof.
  intros H12 (p & q & ->). by apply includes_prefix, includes_suffix.
Qed.

Lemma plain_char_not_squote (c : Ascii.ascii) :
  plain_char c = true → Ascii.eqb PyRepr.squote c = false.
Proof.
  destruct c as [[] [] [] [] [] [] [] []]; vm_compute;
    first [reflexivity | discriminate].
Qed.

Lemma repr_char_plain (c : Ascii.ascii) :
  plain_char c = true →
  PyRepr.repr_char PyRepr.squote c = String c EmptyString.
Proof.
  destruct c as [[] [] [] [] [] [] [] []]; vm_compute;
    first [reflexivity | discriminate].
Qed.

Lemma contains_squote_plain (s : string) :
  plain s = true → PyRepr.contains PyRepr.squote s = false.
Proof.
  induction s as [|c s IH]; [done |].
  intros [Hc Hs]%andb_prop.
  change (PyRepr.contains PyRepr.squote (String c s))
    with (if Ascii.eqb PyRepr.squote c then true
          else PyRepr.contains PyRepr.squote s).
  by rewrite plain_char_not_squote, IH.
Qed.

Lemma repr_chars_plain (s : string) :
  plain s = true → PyRepr.repr_chars PyRepr.squote s = s.
Proof.
  induction s as [|c s IH]; [done |].
  intros [Hc Hs]%andb_prop.
  change (PyRepr.repr_chars PyRepr.squote (String c s))
    with (PyRepr.repr_char PyRepr.squote c +:+ PyRepr.repr_chars PyRepr.squote s).
  by rewrite repr_char_plain, IH.
Qed.

(** [repr] of a plain string is the string between single quotes. *)
Lemma repr_str_plain (s : string) :
  plain s = true → PyRepr.repr_str s = "'" +:+ s +:+ "'".
Proof.
  intros Hs. unfold PyRepr.repr_str, PyRepr.quote_of.
  rewrite contains_squote_plain by done. simpl.
  by rewrite repr_chars_plain.
Qed.

Lemma value_plain (a : StrategyAction) : plain (value a) = true.
Proof. by destruct a. Qed.

(** The printed identity holds the value of the action between quotes and
    the decimal form of the version; with a plain backend it is the text
    [('action', 'backend', version)]. *)
Lemma repr_tuple3_plain (a : StrategyAction) (b : string) (v : Z) :
  plain b = true →
  PyRepr.repr_tuple3 (value a) b v
  = "('" +:+ value a +:+ "', '" +:+ b +:+ "', " +:+ pretty v +:+ ")".
Proof.
  intros Hb. unfold PyRepr.repr_tuple3, PyRepr.repr_int.
  rewrite (repr_str_plain (value a)) by apply value_plain.
  rewrite (repr_str_plain b) by done.
  by rewrite !append_assoc.
Qed.

Lemma repr_tuple3_action (a : StrategyAction) (b : string) (v : Z) :
  includes ("'" +:+ value a +:+ "'") (PyRepr.repr_tuple3 (value a) b v).
Proof.
  unfold PyRepr.repr_tuple3.
  rewrite (repr_str_plain (value a)) by apply value_plain.
  apply includes_prefix, includes_here.
Qed.

Lemma repr_tuple3_version (a : StrategyAction) (b : string) (v : Z) :
  includes (pretty v) (PyRepr.repr_tuple3 (value a) b v).
Proof.
  unfold PyRepr.repr_tuple3, PyRepr.repr_int.
  do 5 apply includes_prefix. apply includes_here.
Qed.

Lemma cannot_import_message_plain a b v e hint :
  plain b = true →
  cannot_import_message a b v e hint
  = "Cannot import a default strategy for: ('" +:+ value a +:+ "', '"
      +:+ b +:+ "', " +:+ pretty v +:+ "). Error: " +:+ exn_str e
      +:+ ". Hint: " +:+ hint.
Proof.
  intros Hb. unfold cannot_import_message.
  rewrite repr_tuple3_plain by done. by rewrite !append_assoc.
Qed.

Lemma cannot_find_message_plain a b v :
  plain b = true →
  cannot_find_message a b v
  = "Cannot find a default strategy for: ('" +:+ value a +:+ "', '"
      +:+ b +:+ "', " +:+ pretty v +:+ ")".
Proof.
  intros Hb. unfold cannot_find_message.
  by rewrite repr_tuple3_plain.
Qed.

Lemma cannot_import_message_names a b v e hint :
  includes ("'" +:+ value a +:+ "'") (cannot_import_message a b v e hint)
  ∧ includes (pretty v) (cannot_import_message a b v e hint)
  ∧ includes (exn_str e) (cannot_import_message a b v e hint).
Proof.
  unfold cannot_import_message. split; [| split].
  - apply includes_prefix.
    apply (includes_suffix _ (PyRepr.repr_tuple3 (value a) b v)).
    apply repr_tuple3_action.
  - apply includes_prefix.
    apply (includes_suffix _ (PyRepr.repr_tuple3 (value a) b v)).
    apply repr_tuple3_version.
  - do 3 apply includes_prefix. apply includes_here.
Qed.

Lemma cannot_find_message_names a b v :
  includes ("'" +:+ value a +:+ "'") (cannot_find_message a b v)
  ∧ includes (pretty v) (cannot_find_message a b v).
Proof.
  unfold cannot_find_message. split.
  - apply includes_prefix, repr_tuple3_action.
  - apply includes_prefix, repr_tuple3_version.
Qed.

(** * The registry: registration and resolution *)

Section RegistryClaims.

Context {Strategy : Type}.
Local Abbreviation Registry := (gmap string (gmap (string * Z) Strategy)).
Implicit Types (d : Registry) (a : StrategyAction) (b : string) (v : Z).
Implicit Types (s : Strategy) (B : Backends Strategy).

(** When the activation returns and leaves the entry of the identity as it
    found it, the resolution gives that entry. *)
Lemma get_default_strategy_registered B a b v s d d' :
  registered d a b v = Some s →
  (activation B b).2 d = (Return (), d') →
  registered d' a b v = registered d a b v →
  (get_default_strategy B a b v d).1 = Return s.
Proof.
  intros Hreg Hact Hkeep. rewrite get_default_strategy_run, Hact.
  by rewrite lookup_default_strategy_outcome, Hkeep, Hreg.
Qed.

Lemma get_default_strategy_registered_no_activation B a b v s d :
  registered d a b v = Some s →
  b ≠ "zarr" → b ≠ "torch_dist" →
  (get_default_strategy B a b v d).1 = Return s.
Proof.
  intros Hreg Hz Ht. rewrite get_default_strategy_no_activation by done.
  by rewrite lookup_default_strategy_outcome, Hreg.
Qed.

(** In particular when every module of the backend can be imported and no
    routine registers the identity. *)
Lemma get_default_strategy_registered_modules_skip B a b v s d :
  registered d a b v = Some s →
  Forall (λ m, skips_identity m a b v) (backend_modules B b) →
  (get_default_strategy B a b v d).1 = Return s.
Proof.
  intros Hreg Hskip.
  destruct (activation_keeps_entry B b d a b v Hskip) as (d' & Hact & Hkeep).
  by eapply get_default_strategy_registered.
Qed.

(** C1, as amended.  Registering [s] under an identity and then resolving
    that identity returns [s] itself when the backend is neither ['zarr']
    nor ['torch_dist']; for these two, [get_default_strategy] first runs
    the backend's activation, and it returns [s] provided the activation
    does not raise and leaves the entry of the identity alone. *)
Theorem register_then_get_same_instance B a b v s d :
  (b ≠ "zarr" → b ≠ "torch_dist" →
   (get_default_strategy B a b v
      (register_default_strategy a b v s d).2).1 = Return s)
  ∧ (∀ d',
       (activation B b).2 (register_default_strategy a b v s d).2
         = (Return (), d') →
       registered d' a b v
         = registered (register_default_strategy a b v s d).2 a b v →
       (get_default_strategy B a b v
          (register_default_strategy a b v s d).2).1 = Return s).
Proof.
  split.
  - intros Hz Ht.
    apply get_default_strategy_registered_no_activation; [| done | done].
    apply registered_register_eq.
  - intros d' Hact Hkeep.
    eapply get_default_strategy_registered; [| exact Hact | exact Hkeep].
    apply registered_register_eq.
Qed.

(** Registering twice under one identity is registering the second
    strategy once. *)
Lemma register_twice a b v s1 s2 d :
  (register_default_strategy a b v s2
     (register_default_strategy a b v s1 d).2).2
  = (register_default_strategy a b v s2 d).2.
Proof.
  unfold register_default_strategy; simpl.
  rewrite lookup_insert_eq; simpl.
  by rewrite !insert_insert_eq.
Qed.

(** C7, as amended.  After registering [s1] and then [s2] under the same
    identity the registry holds exactly [s2] there, as if [s1] had never
    been registered; a later resolution returns [s2] when the backend is
    neither ['zarr'] nor ['torch_dist'], and for these two when the
    activation does not raise and leaves the entry of the identity
    alone. *)
Theorem reregister_last_wins B a b v s1 s2 d :
  let d2 := (register_default_strategy a b v s2
               (register_default_strategy a b v s1 d).2).2 in
  d2 = (register_default_strategy a b v s2 d).2
  ∧ registered d2 a b v = Some s2
  ∧ (b ≠ "zarr" → b ≠ "torch_dist" →
     (get_default_strategy B a b v d2).1 = Return s2)
  ∧ (∀ d',
       (activation B b).2 d2 = (Return (), d') →
       registered d' a b v = registered d2 a b v →
       (get_default_strategy B a b v d2).1 = Return s2).
Proof.
  intros d2. subst d2. rewrite register_twice.
  split; [done |]. split; [apply registered_register_eq |]. split.
  - intros Hz Ht.
    apply get_default_strategy_registered_no_activation; [| done | done].
    apply registered_register_eq.
  - intros d' Hact Hkeep.
    eapply get_default_strategy_registered; [| exact Hact | exact Hkeep].
    apply registered_register_eq.
Qed.

(** C10.  A registration for one identity leaves the entry of every other
    identity, present or absent, as it was, and the resolution of the other
    identity gives the same result before and after. *)
Theorem register_frame B a1 b1 v1 s a2 b2 v2 d :
  (a1, b1, v1) ≠ (a2, b2, v2) →
  registered (register_default_strategy a1 b1 v1 s d).2 a2 b2 v2
    = registered d a2 b2 v2
  ∧ (get_default_strategy B a2 b2 v2
       (register_default_strategy a1 b1 v1 s d).2).1
    = (get_default_strategy B a2 b2 v2 d).1.
Proof.
  intros Hne.
  pose proof (registered_register_ne a1 b1 v1 s d a2 b2 v2 Hne) as Hreg.
  split; [exact Hreg |].
  by apply get_default_strategy_agree.
Qed.

(** C3.  When the identity is not registered and the backend has no
    activation routine, the resolution raises the checkpointing error
    "Cannot find a default strategy for" the identity; it raises the same
    error when the activation returns and the triple is still not
    registered afterwards. *)
Theorem get_unregistered_raises_not_found B a b v d :
  (b ≠ "zarr" → b ≠ "torch_dist" → registered d a b v = None →
   (get_default_strategy B a b v d).1 = Raise (strategy_not_found a b v))
  ∧ (∀ d', (activation B b).2 d = (Return (), d') →
           registered d' a b v = None →
           (get_default_strategy B a b v d).1
             = Raise (strategy_not_found a b v))
  ∧ exn_class (strategy_not_found a b v) = CheckpointingException
  ∧ includes (PyRepr.repr_tuple3 (value a) b v)
             (exn_str (strategy_not_found a b v)).
Proof.
  split; [| split; [| split]].
  - intros Hz Ht Hreg. rewrite get_default_strategy_no_activation by done.
    by rewrite lookup_default_strategy_outcome, Hreg.
  - intros d' Hact Hreg. rewrite get_default_strategy_run, Hact.
    by rewrite lookup_default_strategy_outcome, Hreg.
  - done.
  - simpl. unfold cannot_find_message.
    apply includes_prefix, includes_refl.
Qed.

Lemma activation_hint B b :
  (activation B b).1
  = if decide (b = "zarr")
    then " Please install `zarr` and `tensorstore!=0.1.46` packages"
    else if decide (b = "torch_dist")
         then " Please use PyTorch version >=2.1"
         else "".
Proof. unfold activation. by repeat case_decide. Qed.

Lemma backend_unavailable_includes a b v e hint :
  includes (PyRepr.repr_tuple3 (value a) b v)
           (exn_str (backend_unavailable a b v e hint))
  ∧ includes hint (exn_str (backend_unavailable a b v e hint)).
Proof.
  simpl. unfold cannot_import_message. split.
  - apply includes_prefix, includes_here.
  - do 5 apply includes_prefix. apply includes_refl.
Qed.

(** C4.  When the activation of the backend raises an [ImportError] (or a
    subclass), the resolution raises a [CheckpointingException] caused by
    it.  Its message holds the identity asked for (the value of the action
    between quotes, the backend and the decimal form of the version, as
    Python prints the tuple), the text of the import error and the hint of
    that backend; for a backend made of plain characters the message is
    "Cannot import a default strategy for: ('action', 'backend', version).
    Error: text. Hint: hint". *)
Theorem get_import_failure_raises_unavailable B a b v d e :
  ((activation B b).2 d).1 = Raise e →
  is_ImportError e = true →
  let hint := (activation B b).1 in
  ∃ msg,
    (get_default_strategy B a b v d).1
      = Raise (Exn CheckpointingException msg (Some e))
    ∧ Exn CheckpointingException msg (Some e)
      = backend_unavailable a b v e hint
    ∧ includes (PyRepr.repr_tuple3 (value a) b v) msg
    ∧ includes ("'" +:+ value a +:+ "'") msg
    ∧ includes (pretty v) msg
    ∧ includes (exn_str e) msg
    ∧ includes hint msg
    ∧ (plain b = true →
       msg = "Cannot import a default strategy for: ('" +:+ value a
               +:+ "', '" +:+ b +:+ "', " +:+ pretty v +:+ "). Error: "
               +:+ exn_str e +:+ ". Hint: " +:+ hint)
    ∧ (b = "zarr" →
       hint = " Please install `zarr` and `tensorstore!=0.1.46` packages")
    ∧ (b = "torch_dist" → hint = " Please use PyTorch version >=2.1").
Proof.
  intros Hact Himp hint.
  exists (cannot_import_message a b v e hint).
  destruct (backend_unavailable_includes a b v e hint) as [Hid Hhint].
  destruct (cannot_import_message_names a b v e hint)
    as (Haction & Hversion & Herror).
  split; [| split; [done |]].
  - rewrite get_default_strategy_run.
    destruct ((activation B b).2 d) as [[[]|e'] d']; simpl in Hact;
      [discriminate Hact |].
    injection Hact as ->. by rewrite Himp.
  - repeat (split; [assumption |]).
    split; [apply cannot_import_message_plain |].
    subst hint. rewrite activation_hint. split; by intros ->.
Qed.

(** C5, as amended.  [get_default_strategy] runs the activation of the
    backend on every call with backend ['zarr'] or ['torch_dist'], whatever
    the registry holds, and before the lookup of the triple: the lookup
    reads the registry the activation leaves, and an [ImportError] of the
    activation ends the call.  For every other backend it runs the lookup
    alone. *)
Theorem activation_runs_on_every_resolve B a b v d :
  (b ≠ "zarr" → b ≠ "torch_dist" →
   get_default_strategy B a b v d = lookup_default_strategy a b v d)
  ∧ (∀ d', (activation B b).2 d = (Return (), d') →
           get_default_strategy B a b v d
             = lookup_default_strategy a b v d')
  ∧ (∀ e d', (activation B b).2 d = (Raise e, d') →
             is_ImportError e = true →
             get_default_strategy B a b v d
               = (Raise (backend_unavailable a b v e (activation B b).1), d'))
  ∧ (activation B "zarr").2 d
    = (register_default_tensorstore_strategies ← import_from (tensorstore B);
       register_default_tensorstore_strategies;;
       register_default_zarr_strategies ← import_from (zarr B);
       register_default_zarr_strategies) d
  ∧ (activation B "torch_dist").2 d
    = (register_default_torch_strategies ← import_from (torch B);
       register_default_torch_strategies) d.
Proof.
  split; [| split; [| split; [| split]]].
  - apply get_default_strategy_no_activation.
  - intros d' Hact. by rewrite get_default_strategy_run, Hact.
  - intros e d' Hact Himp. by rewrite get_default_strategy_run, Hact, Himp.
  - done.
  - done.
Qed.

(** C6, as amended.  An [ImportError] (or a subclass) raised by the
    activation surfaces as a [CheckpointingException] caused by it, whose
    message holds the identity asked for, the text of the error and the
    hint.  A triple that is absent after the activation surfaces as a
    [CheckpointingException] caused by the [KeyError] of the lookup, whose
    message holds the identity only.  Any other exception of the activation
    reaches the caller as it was raised, in the state the activation left.
    No other exception leaves [get_default_strategy]. *)
Theorem get_default_strategy_failures B a b v d :
  (∀ cause,
     ((activation B b).2 d).1 = Raise cause →
     is_ImportError cause = true →
     ∃ msg,
       (get_default_strategy B a b v d).1
         = Raise (Exn CheckpointingException msg (Some cause))
       ∧ includes ("'" +:+ value a +:+ "'") msg
       ∧ includes (pretty v) msg
       ∧ includes (exn_str cause) msg
       ∧ includes (activation B b).1 msg
       ∧ (plain b = true →
          msg = "Cannot import a default strategy for: ('" +:+ value a
                  +:+ "', '" +:+ b +:+ "', " +:+ pretty v +:+ "). Error: "
                  +:+ exn_str cause +:+ ". Hint: " +:+ (activation B b).1))
  ∧ (∀ d',
       (activation B b).2 d = (Return (), d') →
       registered d' a b v = None →
       ∃ msg,
         (get_default_strategy B a b v d).1
           = Raise (Exn CheckpointingException msg
                      (Some (Exn KeyError (PyRepr.repr_tuple2 b v) None)))
         ∧ includes ("'" +:+ value a +:+ "'") msg
         ∧ includes (pretty v) msg
         ∧ (plain b = true →
            msg = "Cannot find a default strategy for: ('" +:+ value a
                    +:+ "', '" +:+ b +:+ "', " +:+ pretty v +:+ ")"))
  ∧ (∀ e d',
       (activation B b).2 d = (Raise e, d') →
       is_ImportError e = false →
       get_default_strategy B a b v d = (Raise e, d'))
  ∧ (∀ e,
       (get_default_strategy B a b v d).1 = Raise e →
       (∃ cause,
           ((activation B b).2 d).1 = Raise cause
           ∧ is_ImportError cause = true
           ∧ e = backend_unavailable a b v cause (activation B b).1
           ∧ exn_class e = CheckpointingException
           ∧ includes (PyRepr.repr_tuple3 (value a) b v) (exn_str e)
           ∧ includes (activation B b).1 (exn_str e))
       ∨ (e = strategy_not_found a b v
          ∧ exn_class e = CheckpointingException
          ∧ includes (PyRepr.repr_tuple3 (value a) b v) (exn_str e))
       ∨ (((activation B b).2 d).1 = Raise e ∧ is_ImportError e = false)).
Proof.
  split; [| split; [| split]].
  - intros cause Hact Himp.
    exists (cannot_import_message a b v cause (activation B b).1).
    destruct (backend_unavailable_includes a b v cause (activation B b).1)
      as [_ Hhint].
    destruct (cannot_import_message_names a b v cause (activation B b).1)
      as (Haction & Hversion & Herror).
    split.
    + rewrite get_default_strategy_run.
      destruct ((activation B b).2 d) as [[[]|e'] d']; simpl in Hact;
        [discriminate Hact |].
      injection Hact as ->. by rewrite Himp.
    + repeat (split; [assumption |]). apply cannot_import_message_plain.
  - intros d' Hact Hreg. exists (cannot_find_message a b v).
    destruct (cannot_find_message_names a b v) as [Haction Hversion].
    split.
    + rewrite get_default_strategy_run, Hact.
      by rewrite lookup_default_strategy_outcome, Hreg.
    + repeat (split; [assumption |]). apply cannot_find_message_plain.
  - intros e d' Hact Himp. by rewrite get_default_strategy_run, Hact, Himp.
  - intros e. rewrite get_default_strategy_run.
    destruct ((activation B b).2 d) as [[[]|cause] d'] eqn:Hact; simpl.
    + rewrite lookup_default_strategy_outcome.
      destruct (registered d' a b v); [discriminate |].
      intros [= <-]. right; left. split; [done |]. split; [done |].
      simpl. unfold cannot_find_message.
      apply includes_prefix, includes_refl.
    + destruct (is_ImportError cause) eqn:Himp; simpl; intros [= <-].
      * left. exists cause.
        destruct (backend_unavailable_includes a b v cause (activation B b).1).
        done.
      * by right; right.
Qed.

End RegistryClaims.

(** ** The registry on concrete environments *)

Import Examples.

(** A hand-registered strategy for a backend of one's own is resolved, and so
    is one for ['zarr'] under an identity its routines do not register. *)
Lemma register_then_get_same_instance_witness :
  (get_default_strategy all_installed LOAD_COMMON "my_backend" 3
     (register_default_strategy LOAD_COMMON "my_backend" 3 7%nat ∅).2).1
    = Return 7%nat
  ∧ (get_default_strategy all_installed SAVE_COMMON "zarr" 1
       (register_default_strategy SAVE_COMMON "zarr" 1 7%nat ∅).2).1
    = Return 7%nat.
Proof.
  split.
  - apply (proj1 (register_then_get_same_instance
                    all_installed LOAD_COMMON "my_backend" 3 7%nat ∅));
      discriminate.
  - apply (proj2 (register_then_get_same_instance
                    all_installed SAVE_COMMON "zarr" 1 7%nat ∅)
             ((activation all_installed "zarr").2
                (register_default_strategy SAVE_COMMON "zarr" 1 7%nat ∅).2).2);
      vm_compute; reflexivity.
Defined.

(** C1 fails for backend ['torch_dist'] when [.torch] cannot be imported:
    the strategy was registered and nothing was registered after it, and
    the resolution raises instead of returning it. *)
Lemma register_then_get_import_failure :
  registered (with_user_strategy LOAD_SHARDED "torch_dist" 1)
             LOAD_SHARDED "torch_dist" 1 = Some 7%nat
  ∧ (get_default_strategy torch_unusable LOAD_SHARDED "torch_dist" 1
       (with_user_strategy LOAD_SHARDED "torch_dist" 1)).1
    = Raise (backend_unavailable LOAD_SHARDED "torch_dist" 1 torch_too_old
               " Please use PyTorch version >=2.1")
  ∧ (get_default_strategy torch_unusable LOAD_SHARDED "torch_dist" 1
       (with_user_strategy LOAD_SHARDED "torch_dist" 1)).1
    ≠ Return 7%nat.
Proof. split; [| split]; vm_compute; [reflexivity | reflexivity | discriminate]. Qed.

Lemma reregister_last_wins_witness :
  (get_default_strategy all_installed LOAD_COMMON "my_backend" 3
     (register_default_strategy LOAD_COMMON "my_backend" 3 8%nat
        (register_default_strategy LOAD_COMMON "my_backend" 3 7%nat ∅).2).2).1
    = Return 8%nat
  ∧ (get_default_strategy all_installed SAVE_COMMON "torch_dist" 1
       (register_default_strategy SAVE_COMMON "torch_dist" 1 8%nat
          (register_default_strategy SAVE_COMMON "torch_dist" 1 7%nat ∅).2).2).1
    = Return 8%nat.
Proof.
  split.
  - apply (proj1 (proj2 (proj2 (reregister_last_wins
                    all_installed LOAD_COMMON "my_backend" 3 7%nat 8%nat ∅))));
      discriminate.
  - apply (proj2 (proj2 (proj2 (reregister_last_wins
                    all_installed SAVE_COMMON "torch_dist" 1 7%nat 8%nat ∅)))
             ((activation all_installed "torch_dist").2
                (register_default_strategy SAVE_COMMON "torch_dist" 1 8%nat
                   (register_default_strategy SAVE_COMMON "torch_dist" 1 7%nat
                      ∅).2).2).2);
      vm_compute; reflexivity.
Defined.

(** C7 fails for backend ['zarr'] when [.tensorstore] can be imported and
    [.zarr] cannot: the second strategy is the one registered, and the
    resolution raises instead of returning it. *)
Lemma reregister_then_get_import_failure :
  let d2 := (register_default_strategy SAVE_SHARDED "zarr" 1 8%nat
               (register_default_strategy SAVE_SHARDED "zarr" 1 7%nat ∅).2).2 in
  registered d2 SAVE_SHARDED "zarr" 1 = Some 8%nat
  ∧ (get_default_strategy zarr_not_installed SAVE_SHARDED "zarr" 1 d2).1
    = Raise (backend_unavailable SAVE_SHARDED "zarr" 1 zarr_missing
               " Please install `zarr` and `tensorstore!=0.1.46` packages")
  ∧ (get_default_strategy zarr_not_installed SAVE_SHARDED "zarr" 1 d2).1
    ≠ Return 8%nat.
Proof. split; [| split]; vm_compute; [reflexivity | reflexivity | discriminate]. Qed.

Lemma register_frame_witness :
  registered (register_default_strategy SAVE_SHARDED "zarr" 1 7%nat ∅).2
             LOAD_SHARDED "zarr" 1
    = registered (∅ : gmap string (gmap (string * Z) nat)) LOAD_SHARDED "zarr" 1
  ∧ (get_default_strategy all_installed LOAD_SHARDED "zarr" 1
       (register_default_strategy SAVE_SHARDED "zarr" 1 7%nat ∅).2).1
    = (get_default_strategy all_installed LOAD_SHARDED "zarr" 1 ∅).1.
Proof.
  apply (register_frame all_installed SAVE_SHARDED "zarr" 1 7%nat
           LOAD_SHARDED "zarr" 1 ∅).
  discriminate.
Defined.

Lemma get_unregistered_raises_not_found_witness :
  (get_default_strategy all_installed LOAD_SHARDED "my_backend" 1 ∅).1
    = Raise (strategy_not_found LOAD_SHARDED "my_backend" 1)
  ∧ (get_default_strategy all_installed LOAD_SHARDED "zarr" 2 ∅).1
    = Raise (strategy_not_found LOAD_SHARDED "zarr" 2).
Proof.
  split.
  - apply (proj1 (get_unregistered_raises_not_found
                    all_installed LOAD_SHARDED "my_backend" 1 ∅));
      [discriminate | discriminate | reflexivity].
  - apply (proj1 (proj2 (get_unregistered_raises_not_found
                    all_installed LOAD_SHARDED "zarr" 2 ∅))
             ((activation all_installed "zarr").2 ∅).2);
      vm_compute; reflexivity.
Defined.

Lemma get_import_failure_raises_unavailable_witness :
  (get_default_strategy zarr_not_installed SAVE_SHARDED "zarr" 1 ∅).1
    = Raise (Exn CheckpointingException
               "Cannot import a default strategy for: ('save_sharded', 'zarr', 1). Error: No module named 'zarr'. Hint:  Please install `zarr` and `tensorstore!=0.1.46` packages"
               (Some zarr_missing)).
Proof.
  destruct (get_import_failure_raises_unavailable
              zarr_not_installed SAVE_SHARDED "zarr" 1 ∅ zarr_missing
              eq_refl eq_refl)
    as (msg & Hget & _ & _ & _ & _ & _ & _ & Hmsg & _).
  rewrite Hget, (Hmsg eq_refl). reflexivity.
Defined.

Lemma activation_runs_on_every_resolve_witness :
  get_default_strategy all_installed LOAD_SHARDED "my_backend" 1
    (with_user_strategy LOAD_SHARDED "my_backend" 1)
    = lookup_default_strategy LOAD_SHARDED "my_backend" 1
        (with_user_strategy LOAD_SHARDED "my_backend" 1)
  ∧ get_default_strategy all_installed LOAD_SHARDED "zarr" 1
      (with_user_strategy LOAD_SHARDED "zarr" 1)
    = lookup_default_strategy LOAD_SHARDED "zarr" 1
        ((activation all_installed "zarr").2
           (with_user_strategy LOAD_SHARDED "zarr" 1)).2
  ∧ get_default_strategy torch_unusable LOAD_SHARDED "zarr" 1
      (with_user_strategy LOAD_SHARDED "zarr" 1)
    = (Raise (backend_unavailable LOAD_SHARDED "zarr" 1 tensorstore_missing
                (activation torch_unusable "zarr").1),
       with_user_strategy LOAD_SHARDED "zarr" 1).
Proof.
  split; [| split].
  - apply (proj1 (activation_runs_on_every_resolve
                    all_installed LOAD_SHARDED "my_backend" 1
                    (with_user_strategy LOAD_SHARDED "my_backend" 1)));
      discriminate.
  - apply (proj1 (proj2 (activation_runs_on_every_resolve
                    all_installed LOAD_SHARDED "zarr" 1
                    (with_user_strategy LOAD_SHARDED "zarr" 1)))).
    vm_compute; reflexivity.
  - apply (proj1 (proj2 (proj2 (activation_runs_on_every_resolve
                    torch_unusable LOAD_SHARDED "zarr" 1
                    (with_user_strategy LOAD_SHARDED "zarr" 1))))
             tensorstore_missing);
      vm_compute; reflexivity.
Defined.

(** C5 fails on a registry that already holds a strategy for ['zarr']: the
    resolution depends on what the activation does.  With the modules
    installed the routine registers its default over the strategy that was
    there; with [tensorstore] missing the resolution raises. *)
Lemma resolve_reruns_activation :
  registered (with_user_strategy LOAD_SHARDED "zarr" 1)
             LOAD_SHARDED "zarr" 1 = Some 7%nat
  ∧ (lookup_default_strategy LOAD_SHARDED "zarr" 1
       (with_user_strategy LOAD_SHARDED "zarr" 1)).1 = Return 7%nat
  ∧ (get_default_strategy all_installed LOAD_SHARDED "zarr" 1
       (with_user_strategy LOAD_SHARDED "zarr" 1)).1 = Return 100%nat
  ∧ (get_default_strategy torch_unusable LOAD_SHARDED "zarr" 1
       (with_user_strategy LOAD_SHARDED "zarr" 1)).1
    = Raise (backend_unavailable LOAD_SHARDED "zarr" 1 tensorstore_missing
               " Please install `zarr` and `tensorstore!=0.1.46` packages").
Proof. repeat split; vm_compute; reflexivity. Qed.

Lemma get_default_strategy_failures_witness :
  (get_default_strategy torch_unusable SAVE_SHARDED "torch_dist" 1 ∅).1
    = Raise (Exn CheckpointingException
               "Cannot import a default strategy for: ('save_sharded', 'torch_dist', 1). Error: cannot import name 'DefaultSavePlanner'. Hint:  Please use PyTorch version >=2.1"
               (Some torch_too_old))
  ∧ (get_default_strategy all_installed LOAD_SHARDED "zarr" 2 ∅).1
    = Raise (Exn CheckpointingException
               "Cannot find a default strategy for: ('load_sharded', 'zarr', 2)"
               (Some (Exn KeyError "('zarr', 2)" None)))
  ∧ get_default_strategy torch_broken SAVE_SHARDED "torch_dist" 1 ∅
    = (Raise shared_library_missing, ∅).
Proof.
  split; [| split].
  - destruct (proj1 (get_default_strategy_failures
                       torch_unusable SAVE_SHARDED "torch_dist" 1 ∅)
                torch_too_old eq_refl eq_refl)
      as (msg & Hget & _ & _ & _ & _ & Hmsg).
    rewrite Hget, (Hmsg eq_refl). reflexivity.
  - pose proof (proj1 (proj2 (get_default_strategy_failures
                                all_installed LOAD_SHARDED "zarr" 2 ∅))
                  ((activation all_installed "zarr").2 ∅).2) as Hfind.
    destruct Hfind as (msg & Hget & _ & _ & Hmsg);
      [vm_compute; reflexivity | vm_compute; reflexivity |].
    rewrite Hget, (Hmsg eq_refl). reflexivity.
  - apply (proj1 (proj2 (proj2 (get_default_strategy_failures
                                  torch_broken SAVE_SHARDED "torch_dist" 1 ∅)))
             shared_library_missing ∅);
      reflexivity.
Defined.

(** C6 fails when the import of [.torch] raises an [OSError]: the caller of
    [get_default_strategy] receives that [OSError] itself, not a
    [CheckpointingException]. *)
Lemma get_exposes_other_activation_error :
  (get_default_strategy torch_broken SAVE_SHARDED "torch_dist" 1 ∅).1
    = Raise shared_library_missing
  ∧ exn_class shared_library_missing = OSError
  ∧ exn_class shared_library_missing ≠ CheckpointingException.
Proof. split; [| split]; vm_compute; [reflexivity | reflexivity | discriminate]. Qed.

(** * Load strategies: metadata of the sharded part *)

Section LoadStrategies.

Context {Storage StateDict Leaf : Type}.

(** C8, as amended.  A [LoadCommonStrategy] whose
    [can_handle_sharded_objects] is [False] returns an empty mapping from
    [load_sharded_metadata], without raising and without touching the
    storage, for every checkpoint directory.  A [LoadShardedStrategy] with
    the property [False] does what its [load_tensors_metadata] does. *)
Theorem load_sharded_metadata_without_sharded_objects
    (strategy : LoadStrategy Storage StateDict Leaf)
    (checkpoint_dir : string) (st : Storage) :
  can_handle_sharded_objects strategy = false →
  match strategy with
  | Common _ =>
      load_sharded_metadata strategy checkpoint_dir st = (Return ∅, st)
  | Sharded self =>
      load_sharded_metadata strategy checkpoint_dir st
      = LoadShardedStrategy.load_tensors_metadata self checkpoint_dir st
  end.
Proof.
  destruct strategy as [self | self]; simpl; intros Hcan.
  - unfold LoadCommonStrategy.load_sharded_metadata. by rewrite Hcan.
  - unfold LoadShardedStrategy.load_sharded_metadata. by rewrite Hcan.
Qed.

(** C9.  The [load_sharded_metadata] that [LoadShardedStrategy] defines
    gives exactly what [load_tensors_metadata] gives for the same
    directory when [can_handle_sharded_objects] is [False], and raises
    [NotImplementedError] when it is [True]. *)
Theorem load_sharded_metadata_delegates
    (self : LoadShardedStrategy.t Storage StateDict Leaf)
    (checkpoint_dir : string) (st : Storage) :
  (LoadShardedStrategy.can_handle_sharded_objects self = false →
   LoadShardedStrategy.load_sharded_metadata self checkpoint_dir st
   = LoadShardedStrategy.load_tensors_metadata self checkpoint_dir st)
  ∧ (LoadShardedStrategy.can_handle_sharded_objects self = true →
     LoadShardedStrategy.load_sharded_metadata self checkpoint_dir st
     = (Raise (Exn NotImplementedError
                 ("Loading only sharded metadata not implemented for "
                    +:+ LoadShardedStrategy.class_name self) None), st)).
Proof.
  unfold LoadShardedStrategy.load_sharded_metadata.
  split; intros ->; reflexivity.
Qed.

End LoadStrategies.

(** * The synchronous facade over [async_save] *)

Section AsyncSave.

Import AsyncCallsQueue.
Context {Storage Leaf : Type}.
Implicit Types (self : AsyncSaveShardedStrategy.t Storage Leaf).
Implicit Types (w : World Storage) (st : Storage).

Lemma finalize_blocking_single (async_request : AsyncRequest Storage) st st1 st2 :
  execute async_request st = (Return (), st1) →
  finalize async_request st1 = (Return (), st2) →
  finalize_blocking [Build_Entry async_request false] false st
  = (Return true, Build_World st2 []).
Proof.
  intros Hexec Hfin. simpl. unfold run_entry, mbind, Py_bind, py_bind. simpl.
  by rewrite Hexec, Hfin.
Qed.

(** [save], with its binds unfolded on the state. *)
Lemma save_run self (sharded_state_dict : gmap string Leaf)
    (checkpoint_dir : string) w :
  AsyncSaveShardedStrategy.save self sharded_state_dict checkpoint_dir w
  = match AsyncSaveShardedStrategy.async_save
            self sharded_state_dict checkpoint_dir w with
    | (Raise e, w1) => (Raise e, w1)
    | (Return async_request, w1) =>
        match finalize_blocking
                (async_calls w1 ++ [Build_Entry async_request false])
                false (storage w1) with
        | (Raise e, w3) => (Raise e, w3)
        | (Return _, w3) => (Return (), w3)
        end
    end.
Proof.
  unfold AsyncSaveShardedStrategy.save, mbind, Py_bind, py_bind,
    schedule_async_request, maybe_finalize_async_calls.
  destruct (AsyncSaveShardedStrategy.async_save _ _ _ w)
    as [[async_request | e] w1]; [| done].
  simpl. by destruct (finalize_blocking _ _ _) as [[finalized | e] w3].
Qed.

(** C2.  [save] is the composition of [async_save], the scheduling of the
    request on the shared queue and the blocking finalization: from the
    same state both give the same outcome and leave the same storage and
    the same queue. *)
Theorem save_is_async_save_schedule_finalize self
    (sharded_state_dict : gmap string Leaf) (checkpoint_dir : string) w :
  AsyncSaveShardedStrategy.save self sharded_state_dict checkpoint_dir w
  = AsyncSaveShardedStrategy.async_save_schedule_finalize
      self sharded_state_dict checkpoint_dir w
  ∧ storage (AsyncSaveShardedStrategy.save
               self sharded_state_dict checkpoint_dir w).2
    = storage (AsyncSaveShardedStrategy.async_save_schedule_finalize
                 self sharded_state_dict checkpoint_dir w).2.
Proof.
  assert (AsyncSaveShardedStrategy.save self sharded_state_dict checkpoint_dir w
          = AsyncSaveShardedStrategy.async_save_schedule_finalize
              self sharded_state_dict checkpoint_dir w) as Heq.
  { rewrite save_run.
    unfold AsyncSaveShardedStrategy.async_save_schedule_finalize.
    by destruct (AsyncSaveShardedStrategy.async_save _ _ _ w)
      as [[async_request | e] w1]. }
  split; [exact Heq | by rewrite Heq].
Qed.

(** On an empty queue, with a request whose write and bookkeeping return,
    [save] leaves the storage the bookkeeping leaves and an empty queue. *)
Lemma save_on_empty_queue self (sharded_state_dict : gmap string Leaf)
    (checkpoint_dir : string) w async_request st0 st1 st2 :
  AsyncSaveShardedStrategy.async_save self sharded_state_dict checkpoint_dir w
    = (Return async_request, Build_World st0 []) →
  execute async_request st0 = (Return (), st1) →
  finalize async_request st1 = (Return (), st2) →
  AsyncSaveShardedStrategy.save self sharded_state_dict checkpoint_dir w
  = (Return (), Build_World st2 []).
Proof.
  intros Hsave Hexec Hfin.
  rewrite save_run, Hsave; simpl.
  unfold run_entry, mbind, Py_bind, py_bind; simpl.
  by rewrite Hexec, Hfin.
Qed.

End AsyncSave.

(** ** The strategies on concrete inputs *)

Lemma load_sharded_metadata_without_sharded_objects_witness :
  load_sharded_metadata (Common common_loader) "ckpt" one_checkpoint
    = (Return ∅, one_checkpoint)
  ∧ load_sharded_metadata (Sharded tensor_loader) "ckpt" one_checkpoint
    = LoadShardedStrategy.load_tensors_metadata tensor_loader "ckpt"
        one_checkpoint.
Proof.
  split.
  - apply (load_sharded_metadata_without_sharded_objects
             (Common common_loader) "ckpt" one_checkpoint).
    reflexivity.
  - apply (load_sharded_metadata_without_sharded_objects
             (Sharded tensor_loader) "ckpt" one_checkpoint).
    reflexivity.
Defined.

(** C8 fails for a [LoadShardedStrategy]: with the property [False] its
    [load_sharded_metadata] returns the tensors' metadata, which is not
    empty, and raises when [load_tensors_metadata] raises. *)
Lemma load_sharded_metadata_not_empty :
  can_handle_sharded_objects (Sharded tensor_loader) = false
  ∧ (load_sharded_metadata (Sharded tensor_loader) "ckpt" one_checkpoint).1
    = Return {[ "layer.weight" := ([4; 8], "float32") ]}
  ∧ ({[ "layer.weight" := ([4; 8], "float32") ]} : gmap string Meta) ≠ ∅
  ∧ (load_sharded_metadata (Sharded tensor_loader) "other" one_checkpoint).1
    = Raise (no_checkpoint "other").
Proof.
  split; [reflexivity |]. split; [by vm_compute |].
  split; [| by vm_compute].
  apply insert_non_empty.
Qed.

Lemma load_sharded_metadata_delegates_witness :
  LoadShardedStrategy.load_sharded_metadata tensor_loader "ckpt" one_checkpoint
    = LoadShardedStrategy.load_tensors_metadata tensor_loader "ckpt"
        one_checkpoint
  ∧ LoadShardedStrategy.load_sharded_metadata object_loader "ckpt"
      one_checkpoint
    = (Raise (Exn NotImplementedError
                "Loading only sharded metadata not implemented for ObjectLoader"
                None), one_checkpoint).
Proof.
  split.
  - apply (proj1 (load_sharded_metadata_delegates
                    tensor_loader "ckpt" one_checkpoint)).
    reflexivity.
  - apply (proj2 (load_sharded_metadata_delegates
                    object_loader "ckpt" one_checkpoint)).
    reflexivity.
Defined.

(** [save] of the example strategy on an empty queue writes the state dict
    and leaves the queue empty. *)
Example disk_saver_save :
  AsyncSaveShardedStrategy.save disk_saver
    {[ "layer.weight" := ([4; 8], "float32") ]} "ckpt"
    (AsyncCallsQueue.Build_World ∅ [])
  = (Return (), AsyncCallsQueue.Build_World one_checkpoint []).
Proof.
  eapply save_on_empty_queue; reflexivity.
Qed.

(** * More on the registry *)

Section RegistryMore.

Context {Strategy : Type}.
Local Abbreviation Registry := (gmap string (gmap (string * Z) Strategy)).
Implicit Types (d : Registry) (a : StrategyAction) (b : string) (v : Z).
Implicit Types (s : Strategy) (B : Backends Strategy).
Implicit Types (regs : list (Registration Strategy)).

Lemma register_all_cons a b v s regs d :
  (register_all ((a, b, v, s) :: regs) d).2
  = (register_all regs (register_default_strategy a b v s d).2).2.
Proof. done. Qed.

Lemma register_all_app regs1 regs2 d :
  (register_all (regs1 ++ regs2) d).2
  = (register_all regs2 (register_all regs1 d).2).2.
Proof.
  revert d. induction regs1 as [|[[[a b] v] s] regs1 IH]; intros d; [done |].
  rewrite <- app_comm_cons, !register_all_cons. apply IH.
Qed.

(** After a sequence of registrations an identity holds the strategy of the
    last registration made for it, or what it held before. *)
Lemma registered_register_all regs d a b v :
  registered (register_all regs d).2 a b v
  = match last_registration regs a b v with
    | Some s => Some s
    | None => registered d a b v
    end.
Proof.
  revert d. induction regs as [|[[[a0 b0] v0] s0] regs IH]; intros d; [done |].
  rewrite register_all_cons, IH. simpl.
  destruct (last_registration regs a b v); [done |].
  case_decide as Heq.
  - injection Heq as -> -> ->. apply registered_register_eq.
  - by apply registered_register_ne.
Qed.

(** X1.  For a backend other than ['zarr'] and ['torch_dist'],
    [get_default_strategy] returns a strategy exactly when that strategy is
    the one registered under the identity. *)
Theorem get_returns_iff_registered B a b v s d :
  b ≠ "zarr" → b ≠ "torch_dist" →
  (get_default_strategy B a b v d).1 = Return s ↔ registered d a b v = Some s.
Proof.
  intros Hz Ht. rewrite get_default_strategy_no_activation by done.
  rewrite lookup_default_strategy_outcome.
  destruct (registered d a b v) as [s' |]; split; intros [= ->]; done.
Qed.


(** X3.  Registrations under two different identities commute: either order
    leaves the same registry. *)
Theorem register_commute a1 b1 v1 s1 a2 b2 v2 s2 d :
  (a1, b1, v1) ≠ (a2, b2, v2) →
  (register_default_strategy a2 b2 v2 s2
     (register_default_strategy a1 b1 v1 s1 d).2).2
  = (register_default_strategy a1 b1 v1 s1
       (register_default_strategy a2 b2 v2 s2 d).2).2.
Proof.
  intros Hne. unfold register_default_strategy; simpl.
  destruct (decide (value a1 = value a2)) as [Ha | Ha].
  - rewrite Ha, !lookup_insert_eq, !insert_insert_eq; simpl.
    f_equal. apply insert_insert_ne.
    apply value_inj in Ha. congruence.
  - rewrite (lookup_insert_ne _ (value a1) (value a2)) by done.
    rewrite (lookup_insert_ne _ (value a2) (value a1)) by done.
    by apply insert_insert_ne.
Qed.

(** X4.  After any sequence of registrations, for a backend other than
    ['zarr'] and ['torch_dist'], [get_default_strategy] returns the strategy
    of the last registration made for the identity; when the sequence has
    none, it gives what it gave before the sequence. *)
Theorem register_sequence_last_wins B regs a b v d :
  b ≠ "zarr" → b ≠ "torch_dist" →
  (get_default_strategy B a b v (register_all regs d).2).1
  = match last_registration regs a b v with
    | Some s => Return s
    | None => (get_default_strategy B a b v d).1
    end.
Proof.
  intros Hz Ht. rewrite !get_default_strategy_no_activation by done.
  rewrite !lookup_default_strategy_outcome, registered_register_all.
  by destruct (last_registration regs a b v).
Qed.

(** When every module of the backend can be imported, the activation is the
    sequence of the registrations of their routines. *)
Lemma activation_all_imported B b d (routines : list (list (Registration Strategy))) :
  backend_modules B b = Provides <$> routines →
  (activation B b).2 d = (Return (), (register_all (concat routines) d).2).
Proof.
  unfold backend_modules. intros Hmods.
  destruct (decide (b = "zarr")) as [-> | Hz].
  - destruct routines as [|r1 [|r2 [|r3 routines]]]; try discriminate Hmods.
    injection Hmods as Hts Hzarr.
    rewrite activation_zarr, Hts, import_then_call, Hzarr. simpl.
    by rewrite app_nil_r, register_all_app.
  - destruct (decide (b = "torch_dist")) as [-> | Ht].
    + destruct routines as [|r1 [|r2 routines]]; try discriminate Hmods.
      injection Hmods as Htorch.
      unfold activation; simpl.
      rewrite import_then_call, Htorch. simpl. by rewrite app_nil_r.
    + destruct routines; [| discriminate Hmods].
      by rewrite activation_none.
Qed.

(** X5.  When every module of the backend can be imported,
    [get_default_strategy] returns the strategy the routines register last
    for the identity, whatever was registered for it before the call; for
    an identity the routines do not register it returns the strategy
    registered before, and raises "Cannot find" when there is none. *)
Theorem activation_defaults_win B a b v d
    (routines : list (list (Registration Strategy))) :
  backend_modules B b = Provides <$> routines →
  (get_default_strategy B a b v d).1
  = match last_registration (concat routines) a b v with
    | Some s => Return s
    | None =>
        match registered d a b v with
        | Some s => Return s
        | None => Raise (strategy_not_found a b v)
        end
    end.
Proof.
  intros Hmods.
  rewrite get_default_strategy_run, (activation_all_imported B b d routines Hmods).
  rewrite lookup_default_strategy_outcome, registered_register_all.
  by destruct (last_registration (concat routines) a b v).
Qed.

(** X6.  When [.tensorstore] can be imported and the import of [.zarr]
    raises an [ImportError], the resolution for backend ['zarr'] raises and
    the registrations of the tensorstore routine stay in the registry:
    nothing is rolled back. *)
Theorem failed_zarr_import_keeps_tensorstore B a v d regs e :
  tensorstore B = Provides regs →
  zarr B = ImportRaises e →
  is_ImportError e = true →
  get_default_strategy B a "zarr" v d
  = (Raise (backend_unavailable a "zarr" v e
              " Please install `zarr` and `tensorstore!=0.1.46` packages"),
     (register_all regs d).2)
  ∧ (∀ a' b' v' s, last_registration regs a' b' v' = Some s →
       registered (get_default_strategy B a "zarr" v d).2 a' b' v' = Some s).
Proof.
  intros Hts Hzarr Himp.
  assert (get_default_strategy B a "zarr" v d
          = (Raise (backend_unavailable a "zarr" v e
                      " Please install `zarr` and `tensorstore!=0.1.46` packages"),
             (register_all regs d).2)) as Hget.
  { rewrite get_default_strategy_run, activation_zarr, Hts.
    rewrite import_then_call, Hzarr, Himp. done. }
  split; [exact Hget |].
  intros a' b' v' s Hlast. rewrite Hget; simpl.
  by rewrite registered_register_all, Hlast.
Qed.

End RegistryMore.

(** X7.  A resolution that fails on an import and a resolution that fails
    on the lookup both raise a [CheckpointingException]: the class does not
    tell them apart.  Their messages differ, and so do the classes of their
    causes: the first is caused by the import error, the second by a
    [KeyError]. *)
Theorem failures_distinguishable {Strategy : Type}
    (B B' : Backends Strategy) (a a' : StrategyAction) (b b' : string)
    (v v' : Z) (d d' d1' : gmap string (gmap (string * Z) Strategy))
    (cause e e' : PyExn) :
  ((activation B b).2 d).1 = Raise cause →
  is_ImportError cause = true →
  (get_default_strategy B a b v d).1 = Raise e →
  (activation B' b').2 d' = (Return (), d1') →
  (get_default_strategy B' a' b' v' d').1 = Raise e' →
  exn_class e = CheckpointingException
  ∧ exn_class e' = CheckpointingException
  ∧ exn_str e ≠ exn_str e'
  ∧ exn_cause e = Some cause
  ∧ (∃ key, exn_cause e' = Some (Exn KeyError key None))
  ∧ (exn_class <$> exn_cause e) ≠ (exn_class <$> exn_cause e').
Proof.
  intros Hact Himp Hget Hact' Hget'.
  rewrite get_default_strategy_run in Hget.
  destruct ((activation B b).2 d) as [[[] | cause0] d1]; simpl in Hact;
    [discriminate Hact |].
  injection Hact as ->. rewrite Himp in Hget. injection Hget as <-.
  rewrite get_default_strategy_run, Hact' in Hget'.
  rewrite lookup_default_strategy_outcome in Hget'.
  destruct (registered d1' a' b' v'); [discriminate Hget' |].
  injection Hget' as <-.
  split; [done |]. split; [done |]. split; [| split; [done | split]].
  - simpl. unfold cannot_import_message, cannot_find_message. intros Heq.
    apply (f_equal (String.get 7)) in Heq.
    rewrite <- !String.append_correct1 in Heq by (simpl; lia).
    discriminate Heq.
  - by eexists.
  - simpl. intros [= Hcls]. unfold is_ImportError in Himp.
    by rewrite Hcls in Himp.
Qed.

Section RegistryGrows.

Context {Strategy : Type}.
Local Abbreviation Registry := (gmap string (gmap (string * Z) Strategy)).
Implicit Types (d : Registry) (a : StrategyAction) (b : string) (v : Z).
Implicit Types (s : Strategy) (B : Backends Strategy).

(** Whether it returns or raises, the activation leaves the registry that
    some sequence of registrations gives. *)
Lemma activation_state B b d :
  ∃ regs : list (Registration Strategy),
    ((activation B b).2 d).2 = (register_all regs d).2.
Proof.
  destruct (decide (b = "zarr")) as [-> | Hz].
  - rewrite activation_zarr.
    destruct (tensorstore B) as [e | regs1]; [by exists [] |].
    rewrite import_then_call.
    destruct (zarr B) as [e | regs2]; [by exists regs1 |].
    exists (regs1 ++ regs2)%list. by rewrite register_all_app.
  - destruct (decide (b = "torch_dist")) as [-> | Ht].
    + unfold activation; simpl. rewrite import_then_call.
      destruct (torch B) as [e | regs]; [by exists [] | by exists regs].
    + rewrite activation_none by done. by exists [].
Qed.

Lemma register_all_keeps_registered (regs : list (Registration Strategy))
    d a b v :
  is_Some (registered d a b v) →
  is_Some (registered (register_all regs d).2 a b v).
Proof.
  intros Hreg. rewrite registered_register_all.
  by destruct (last_registration regs a b v).
Qed.

(** X12.  Neither a registration nor a resolution unregisters anything: an
    identity that holds a strategy still holds one after
    [register_default_strategy] and after [get_default_strategy], for every
    backend and whether the resolution returns or raises. *)
Theorem registry_never_shrinks B a b v s d a' b' v' :
  is_Some (registered d a' b' v') →
  is_Some (registered (register_default_strategy a b v s d).2 a' b' v')
  ∧ is_Some (registered (get_default_strategy B a b v d).2 a' b' v').
Proof.
  intros Hreg. split.
  - destruct (decide ((a, b, v) = (a', b', v'))) as [Heq | Hne].
    + injection Heq as <- <- <-. by rewrite registered_register_eq.
    + by rewrite registered_register_ne.
  - rewrite get_default_strategy_run.
    destruct (activation_state B b d) as [regs Hstate].
    pose proof (register_all_keeps_registered regs d a' b' v' Hreg) as Hkept.
    rewrite <- Hstate in Hkept.
    destruct ((activation B b).2 d) as [[[] | e] d1]; simpl in Hkept.
    + by rewrite lookup_default_strategy_registered.
    + by destruct (is_ImportError e).
Qed.

End RegistryGrows.

(** * The description of a save strategy *)

Import MoreExamples.

Lemma append_cons (c : Ascii.ascii) (s1 s2 : string) :
  String c s1 +:+ s2 = String c (s1 +:+ s2).
Proof. reflexivity. Qed.

Lemma contains_cons (c c' : Ascii.ascii) (s : string) :
  PyRepr.contains c (String c' s)
  = if Ascii.eqb c c' then true else PyRepr.contains c s.
Proof. reflexivity. Qed.

Lemma contains_app (c : Ascii.ascii) (s1 s2 : string) :
  PyRepr.contains c (s1 +:+ s2)
  = PyRepr.contains c s1 || PyRepr.contains c s2.
Proof.
  induction s1 as [|c' s1 IH]; [reflexivity |].
  rewrite append_cons, !contains_cons, IH. by destruct (Ascii.eqb c c').
Qed.

Lemma contains_here (c : Ascii.ascii) (s r : string) :
  PyRepr.contains c (s +:+ String c r) = true.
Proof.
  rewrite contains_app, contains_cons, Ascii.eqb_refl. apply orb_true_r.
Qed.

(** A string splits in one way only around the first occurrence of a
    character. *)
Lemma split_first_unique (c : Ascii.ascii) (s1 r1 s2 r2 : string) :
  PyRepr.contains c s1 = false → PyRepr.contains c s2 = false →
  s1 +:+ String c r1 = s2 +:+ String c r2 → s1 = s2 ∧ r1 = r2.
Proof.
  revert s2. induction s1 as [|c1 s1 IH]; intros [|c2 s2] H1 H2 Heq.
  - by injection Heq.
  - rewrite append_cons in Heq. injection Heq as <- _.
    rewrite contains_cons, Ascii.eqb_refl in H2. discriminate H2.
  - rewrite append_cons in Heq. injection Heq as -> _.
    rewrite contains_cons, Ascii.eqb_refl in H1. discriminate H1.
  - rewrite !append_cons in Heq. injection Heq as -> Heq.
    rewrite contains_cons in H1, H2.
    destruct (Ascii.eqb c c2); [discriminate H1 |].
    destruct (IH s2 H1 H2 Heq) as [-> ->]. done.
Qed.

(** And in one way only around the last occurrence. *)
Lemma split_last_unique (c : Ascii.ascii) (s1 r1 s2 r2 : string) :
  PyRepr.contains c r1 = false → PyRepr.contains c r2 = false →
  s1 +:+ String c r1 = s2 +:+ String c r2 → s1 = s2 ∧ r1 = r2.
Proof.
  revert s2. induction s1 as [|c1 s1 IH]; intros [|c2 s2] H1 H2 Heq.
  - by injection Heq.
  - rewrite append_cons in Heq. injection Heq as _ ->.
    rewrite contains_here in H1. discriminate H1.
  - rewrite append_cons in Heq. injection Heq as _ <-.
    rewrite contains_here in H2. discriminate H2.
  - rewrite !append_cons in Heq. injection Heq as -> Heq.
    destruct (IH s2 H1 H2 Heq) as [-> ->]. done.
Qed.

Lemma comma_not_digit (x : N) :
  Ascii.eqb comma (pretty_N_char x) = false.
Proof. unfold pretty_N_char. by repeat case_match. Qed.

Lemma contains_comma_pretty_N_go (x : N) (s : string) :
  PyRepr.contains comma (pretty_N_go x s) = PyRepr.contains comma s.
Proof.
  revert s. induction (N.lt_wf_0 x) as [x _ IH]; intros s.
  assert (x = 0 ∨ 0 < x)%N as [-> | Hpos] by lia.
  - by rewrite pretty_N_go_0.
  - rewrite pretty_N_go_step by done.
    rewrite IH by (by apply N.div_lt).
    by rewrite contains_cons, comma_not_digit.
Qed.

Lemma contains_comma_pretty_positive (p : positive) :
  PyRepr.contains comma (pretty p) = false.
Proof.
  unfold pretty, pretty_positive, pretty, pretty_N.
  case_decide; [done |]. by rewrite contains_comma_pretty_N_go.
Qed.

(** The decimal form of an integer has no comma. *)
Lemma repr_int_no_comma (n : Z) :
  PyRepr.contains comma (PyRepr.repr_int n) = false.
Proof.
  unfold PyRepr.repr_int, pretty, pretty_Z. destruct n as [|p|p].
  - done.
  - apply contains_comma_pretty_positive.
  - rewrite contains_app, contains_comma_pretty_positive. done.
Qed.

Lemma str_shape (self : SaveStrategyBase.t) :
  SaveStrategyBase.__str__ self
  = SaveStrategyBase.class_name self
      +:+ String lparen
            (SaveStrategyBase.backend self
               +:+ String comma
                     (String space
                        (PyRepr.repr_int (SaveStrategyBase.version self)
                           +:+ String rparen ""))).
Proof. reflexivity. Qed.

(** X8.  The description [__str__] gives tells save strategies apart: two
    strategies whose class names hold no opening parenthesis and whose
    descriptions are equal have the same class name, the same backend and
    the same version. *)
Theorem str_injective (self other : SaveStrategyBase.t) :
  PyRepr.contains lparen (SaveStrategyBase.class_name self) = false →
  PyRepr.contains lparen (SaveStrategyBase.class_name other) = false →
  SaveStrategyBase.__str__ self = SaveStrategyBase.__str__ other →
  self = other.
Proof.
  intros Hself Hother Heq. rewrite !str_shape in Heq.
  destruct self as [cn1 b1 v1], other as [cn2 b2 v2]; simpl in *.
  apply split_first_unique in Heq as [-> Heq]; [| done | done].
  apply split_last_unique in Heq as [-> Heq].
  - injection Heq as Heq.
    apply split_last_unique in Heq as [Heq _]; [| done | done].
    apply (inj pretty) in Heq as ->. done.
  - by rewrite contains_cons, contains_app, repr_int_no_comma.
  - by rewrite contains_cons, contains_app, repr_int_no_comma.
Qed.

(** * More on the synchronous facade *)

Section AsyncSaveMore.

Import AsyncCallsQueue.
Context {Storage Leaf : Type}.
Implicit Types (self : AsyncSaveShardedStrategy.t Storage Leaf).
Implicit Types (w : World Storage) (st : Storage).
Implicit Types (queue : list (Entry Storage)).

(** The blocking finalization removes entries from the head of the queue
    and nothing else. *)
Lemma finalize_blocking_suffix queue finalized st :
  async_calls (finalize_blocking queue finalized st).2 `suffix_of` queue.
Proof.
  revert finalized st. induction queue as [|entry queue IH];
    intros finalized st; simpl; [done |].
  destruct (run_entry entry st) as [[[] | e] st'].
  - by apply suffix_cons_r.
  - simpl. by apply suffix_cons_r.
Qed.

(** When it returns, it has emptied the queue. *)
Lemma finalize_blocking_returns queue finalized st result w' :
  finalize_blocking queue finalized st = (Return result, w') →
  async_calls w' = [].
Proof.
  revert finalized st. induction queue as [|entry queue IH];
    intros finalized st; simpl.
  - by intros [= _ <-].
  - destruct (run_entry entry st) as [[[] | e] st']; [apply IH | done].
Qed.

(** X9.  [save] puts nothing on the shared queue but its own request, at
    the tail, and only when [async_save] returns: when [async_save] raises,
    [save] raises the same exception in the state [async_save] left; and
    otherwise the queue [save] leaves is a tail of the queue [async_save]
    left followed by the new request. *)
Theorem save_queue_discipline self (sharded_state_dict : gmap string Leaf)
    (checkpoint_dir : string) w :
  match AsyncSaveShardedStrategy.async_save
          self sharded_state_dict checkpoint_dir w with
  | (Raise e, w1) =>
      AsyncSaveShardedStrategy.save self sharded_state_dict checkpoint_dir w
      = (Raise e, w1)
  | (Return async_request, w1) =>
      async_calls (AsyncSaveShardedStrategy.save
                     self sharded_state_dict checkpoint_dir w).2
        `suffix_of` (async_calls w1 ++ [Build_Entry async_request false])%list
  end.
Proof.
  rewrite save_run.
  destruct (AsyncSaveShardedStrategy.async_save _ _ _ w)
    as [[async_request | e] w1]; [| done].
  pose proof (finalize_blocking_suffix
                (async_calls w1 ++ [Build_Entry async_request false])%list
                false (storage w1)) as Hsuffix.
  by destruct (finalize_blocking _ _ _) as [[finalized | e] w3].
Qed.

(** The blocking finalization runs the entries in the order of the queue:
    it returns, with an empty queue, when all of them return, and it raises
    what the first failing entry raises. *)
Lemma finalize_blocking_run_entries queue finalized st :
  match run_entries queue st with
  | (Return _, st') =>
      ∃ result, finalize_blocking queue finalized st
                = (Return result, Build_World st' [])
  | (Raise e, st') =>
      ∃ rest, finalize_blocking queue finalized st
              = (Raise e, Build_World st' rest)
  end.
Proof.
  revert finalized st. induction queue as [|entry queue IH];
    intros finalized st; simpl; [by eexists |].
  unfold mbind, Py_bind, py_bind.
  destruct (run_entry entry st) as [[[] | e] st']; [apply IH | by eexists].
Qed.

(** X10.  [save] returns exactly when [async_save] returns a request and
    every entry of the shared queue, the requests scheduled before the call
    first and the new request last, is run to its end in that order.  The
    storage [save] leaves is the one these runs leave, and the queue it
    leaves is empty. *)
Theorem save_drains_queue self (sharded_state_dict : gmap string Leaf)
    (checkpoint_dir : string) w w' :
  AsyncSaveShardedStrategy.save self sharded_state_dict checkpoint_dir w
    = (Return (), w')
  ↔ ∃ async_request w1,
      AsyncSaveShardedStrategy.async_save
        self sharded_state_dict checkpoint_dir w
        = (Return async_request, w1)
      ∧ run_entries (async_calls w1 ++ [Build_Entry async_request false])%list
                    (storage w1)
        = (Return (), storage w')
      ∧ async_calls w' = [].
Proof.
  rewrite save_run.
  destruct (AsyncSaveShardedStrategy.async_save _ _ _ w)
    as [[async_request | e] w1].
  - pose proof (finalize_blocking_run_entries
                  (async_calls w1 ++ [Build_Entry async_request false])%list
                  false (storage w1)) as Hrun.
    destruct (run_entries _ (storage w1)) as [[[] | e] st'] eqn:Hentries.
    + destruct Hrun as [result ->]. split.
      * intros [= <-]. exists async_request, w1. by rewrite Hentries.
      * intros (r & w2 & [= <- <-] & Hrun & Hqueue).
        rewrite Hentries in Hrun. injection Hrun as ->.
        destruct w' as [st'' queue'']; simpl in *. by subst.
    + destruct Hrun as [rest ->]. split; [done |].
      intros (r & w2 & [= <- <-] & Hrun & _).
      rewrite Hentries in Hrun. discriminate Hrun.
  - split; [done |]. by intros (r & w2 & [=] & _).
Qed.

End AsyncSaveMore.

(** ** The additional facts on concrete inputs *)

Import Examples.

Lemma get_returns_iff_registered_witness :
  (get_default_strategy all_installed LOAD_COMMON "my_backend" 3
     (with_user_strategy LOAD_COMMON "my_backend" 3)).1 = Return 7%nat
  ↔ registered (with_user_strategy LOAD_COMMON "my_backend" 3)
               LOAD_COMMON "my_backend" 3 = Some 7%nat.
Proof.
  apply (get_returns_iff_registered all_installed LOAD_COMMON "my_backend" 3
           7%nat (with_user_strategy LOAD_COMMON "my_backend" 3));
    discriminate.
Defined.


Lemma register_commute_witness :
  (register_default_strategy SAVE_SHARDED "zarr" 1 8%nat
     (register_default_strategy LOAD_SHARDED "zarr" 1 7%nat ∅).2).2
  = (register_default_strategy LOAD_SHARDED "zarr" 1 7%nat
       (register_default_strategy SAVE_SHARDED "zarr" 1 8%nat ∅).2).2.
Proof.
  apply (register_commute LOAD_SHARDED "zarr" 1 7%nat
           SAVE_SHARDED "zarr" 1 8%nat ∅).
  discriminate.
Defined.

Lemma register_sequence_last_wins_witness :
  (get_default_strategy all_installed LOAD_COMMON "my_backend" 3
     (register_all [(LOAD_COMMON, "my_backend", 3, 7%nat);
                    (SAVE_COMMON, "my_backend", 3, 9%nat);
                    (LOAD_COMMON, "my_backend", 3, 8%nat)] ∅).2).1
  = Return 8%nat.
Proof.
  apply (register_sequence_last_wins all_installed
           [(LOAD_COMMON, "my_backend", 3, 7%nat);
            (SAVE_COMMON, "my_backend", 3, 9%nat);
            (LOAD_COMMON, "my_backend", 3, 8%nat)]
           LOAD_COMMON "my_backend" 3 ∅);
    discriminate.
Defined.

Lemma activation_defaults_win_witness :
  (get_default_strategy all_installed LOAD_SHARDED "zarr" 1
     (with_user_strategy LOAD_SHARDED "zarr" 1)).1 = Return 100%nat.
Proof.
  apply (activation_defaults_win all_installed LOAD_SHARDED "zarr" 1
           (with_user_strategy LOAD_SHARDED "zarr" 1)
           [[(LOAD_SHARDED, "zarr", 1, 100%nat)];
            [(SAVE_SHARDED, "zarr", 1, 101%nat)]]).
  reflexivity.
Defined.

Lemma failed_zarr_import_keeps_tensorstore_witness :
  get_default_strategy zarr_not_installed SAVE_SHARDED "zarr" 1 ∅
  = (Raise (backend_unavailable SAVE_SHARDED "zarr" 1 zarr_missing
              " Please install `zarr` and `tensorstore!=0.1.46` packages"),
     (register_all [(LOAD_SHARDED, "zarr", 1, 100%nat)] ∅).2)
  ∧ (∀ a' b' v' s,
       last_registration [(LOAD_SHARDED, "zarr", 1, 100%nat)] a' b' v' = Some s →
       registered
         (get_default_strategy zarr_not_installed SAVE_SHARDED "zarr" 1 ∅).2
         a' b' v' = Some s).
Proof.
  apply (failed_zarr_import_keeps_tensorstore zarr_not_installed
           SAVE_SHARDED 1 ∅ [(LOAD_SHARDED, "zarr", 1, 100%nat)] zarr_missing);
    reflexivity.
Defined.

Lemma failures_distinguishable_witness :
  exn_class (backend_unavailable SAVE_SHARDED "zarr" 1 zarr_missing
               " Please install `zarr` and `tensorstore!=0.1.46` packages")
    = CheckpointingException
  ∧ exn_class (strategy_not_found LOAD_SHARDED "my_backend" 1)
    = CheckpointingException
  ∧ exn_str (backend_unavailable SAVE_SHARDED "zarr" 1 zarr_missing
               " Please install `zarr` and `tensorstore!=0.1.46` packages")
    ≠ exn_str (strategy_not_found LOAD_SHARDED "my_backend" 1)
  ∧ exn_cause (backend_unavailable SAVE_SHARDED "zarr" 1 zarr_missing
                 " Please install `zarr` and `tensorstore!=0.1.46` packages")
    = Some zarr_missing
  ∧ (∃ key, exn_cause (strategy_not_found LOAD_SHARDED "my_backend" 1)
            = Some (Exn KeyError key None))
  ∧ (exn_class <$> exn_cause
                     (backend_unavailable SAVE_SHARDED "zarr" 1 zarr_missing
                        " Please install `zarr` and `tensorstore!=0.1.46` packages"))
    ≠ (exn_class <$> exn_cause (strategy_not_found LOAD_SHARDED "my_backend" 1)).
Proof.
  apply (failures_distinguishable
           zarr_not_installed all_installed
           SAVE_SHARDED LOAD_SHARDED "zarr" "my_backend" 1 1
           ∅ ∅ ∅ zarr_missing);
    vm_compute; reflexivity.
Defined.

Lemma str_injective_witness :
  SaveStrategyBase.__init__ "ZarrSaveShardedStrategy" "zarr" 1
  = {| SaveStrategyBase.class_name := "ZarrSaveShardedStrategy";
       SaveStrategyBase.backend := "zarr";
       SaveStrategyBase.version := 1 |}.
Proof.
  apply (str_injective
           (SaveStrategyBase.__init__ "ZarrSaveShardedStrategy" "zarr" 1)
           {| SaveStrategyBase.class_name := "ZarrSaveShardedStrategy";
              SaveStrategyBase.backend := "zarr";
              SaveStrategyBase.version := 1 |});
    reflexivity.
Defined.

Lemma save_drains_queue_witness :
  ∃ async_request w1,
    AsyncSaveShardedStrategy.async_save disk_saver weights "ckpt"
      (AsyncCallsQueue.Build_World ∅
         [AsyncCallsQueue.Build_Entry old_request false])
      = (Return async_request, w1)
    ∧ run_entries
        (AsyncCallsQueue.async_calls w1
           ++ [AsyncCallsQueue.Build_Entry async_request false])%list
        (AsyncCallsQueue.storage w1)
      = (Return (),
         AsyncCallsQueue.storage
           (AsyncCallsQueue.Build_World
              (<["ckpt" := weights]> (<["old" := ∅]> (∅ : Disk))) []))
    ∧ AsyncCallsQueue.async_calls
        (AsyncCallsQueue.Build_World
           (<["ckpt" := weights]> (<["old" := ∅]> (∅ : Disk))) []) = [].
Proof.
  apply (proj1 (save_drains_queue disk_saver weights "ckpt"
                  (AsyncCallsQueue.Build_World ∅
                     [AsyncCallsQueue.Build_Entry old_request false])
                  (AsyncCallsQueue.Build_World
                     (<["ckpt" := weights]> (<["old" := ∅]> (∅ : Disk))) []))).
  reflexivity.
Defined.

(** [save] with a preparation that fails schedules nothing. *)
Example unprepared_saver_save :
  AsyncSaveShardedStrategy.save unprepared_saver weights "ckpt"
    (AsyncCallsQueue.Build_World ∅
       [AsyncCallsQueue.Build_Entry old_request false])
  = (Raise disk_full,
     AsyncCallsQueue.Build_World ∅
       [AsyncCallsQueue.Build_Entry old_request false]).
Proof. reflexivity. Qed.

Lemma registry_never_shrinks_witness :
  is_Some (registered
             (register_default_strategy SAVE_SHARDED "zarr" 1 8%nat
                (with_user_strategy LOAD_SHARDED "zarr" 1)).2
             LOAD_SHARDED "zarr" 1)
  ∧ is_Some (registered
               (get_default_strategy torch_unusable SAVE_SHARDED "zarr" 1
                  (with_user_strategy LOAD_SHARDED "zarr" 1)).2
               LOAD_SHARDED "zarr" 1).
Proof.
  apply (registry_never_shrinks torch_unusable SAVE_SHARDED "zarr" 1 8%nat
           (with_user_strategy LOAD_SHARDED "zarr" 1) LOAD_SHARDED "zarr" 1).
  by exists 7%nat.
Defined.
